(** * Smart Tutor front end: the upload-and-chat client workflow of [app.js]

    The page script is embedded as pure functions on an explicit page
    state.  Every [async] function is split at its single [await fetch(...)]
    into the part that runs up to the request and the continuation that
    runs when the request settles; the requests that are outstanding are
    kept in the page state together with the local variables their
    continuations captured.  Timer callbacks are kept the same way.

    Left out are the effects no other part of the script reads back:
    console output, focus, scrolling, the textarea's height, the character
    counter, the loading overlay and the expiry of toasts.  Of the rendering
    of a message, which is the HTML parser's and for a bot message the
    [marked] library's, the one thing the script depends on is kept:
    whether the rendered message holds an element with the typing
    indicator's id. *)

From Stdlib Require Import Strings.String Strings.Ascii NArith ZArith DecimalString.
From stdpp Require Import gmap list fin_maps.

Local Open Scope N_scope.

(** ** JavaScript strings

    A JavaScript string is a sequence of UTF-16 code units and [.length]
    counts code units. *)

Definition jsstring : Type := list N.

Definition js (s : string) : jsstring :=
  map N_of_ascii (list_ascii_of_string s).

(** [String.prototype.trim] strips the ECMAScript WhiteSpace and
    LineTerminator code points from both ends. *)
Definition isWhiteSpace (c : N) : bool :=
  bool_decide (c ∈ [9; 10; 11; 12; 13; 32; 160; 5760;
                    8192; 8193; 8194; 8195; 8196; 8197; 8198; 8199; 8200;
                    8201; 8202; 8232; 8233; 8239; 8287; 12288; 65279]).

Fixpoint trimStart (s : jsstring) : jsstring :=
  match s with
  | [] => []
  | c :: r => if isWhiteSpace c then trimStart r else s
  end.

Definition trimEnd (s : jsstring) : jsstring := rev (trimStart (rev s)).

Definition trim (s : jsstring) : jsstring := trimEnd (trimStart s).

(** [encodeURIComponent] throws a [URIError] on a string with a lone
    surrogate: a code unit of D800-DBFF that no code unit of DC00-DFFF
    follows, or one of DC00-DFFF that follows no such unit. *)
Definition is_high_surrogate (c : N) : bool := (55296 <=? c) && (c <=? 56319).

Definition is_low_surrogate (c : N) : bool := (56320 <=? c) && (c <=? 57343).

Fixpoint well_formed (s : jsstring) : bool :=
  match s with
  | [] => true
  | c :: r =>
      if is_high_surrogate c
      then match r with
           | d :: r' => is_low_surrogate d && well_formed r'
           | [] => false
           end
      else negb (is_low_surrogate c) && well_formed r
  end.

(** [x || y] on values that are a string, [null] or [undefined]: the empty
    string is falsy as well. *)
Definition truthy (x : option jsstring) : bool :=
  match x with
  | Some (_ :: _) => true
  | _ => false
  end.

Definition js_or (x : option jsstring) (y : jsstring) : jsstring :=
  match x with
  | Some (c :: r) => c :: r
  | _ => y
  end.

(** Decimal rendering of a non-negative integer in a template literal. *)
Definition decimal (n : N) : jsstring :=
  js (NilEmpty.string_of_uint (N.to_uint n)).

(** ** CONFIG *)

Module CONFIG.
Definition MAX_FILE_SIZE : N := 10 * 1024 * 1024.
Definition MAX_MESSAGE_LENGTH : N := 2000.
Definition TOAST_DURATION : N := 4000.
Definition SESSION_STORAGE_KEY : jsstring := js "smart_tutor_session_id".
End CONFIG.

(** ** Data *)

(** A [File] of a [FileList]: the three properties the script reads. *)
Record File : Type := mkFile {
  file_name : jsstring;
  file_type : jsstring;
  file_size : N
}.

Inductive Role : Type := user | bot.

(** An element of a response's [context] array. *)
Record SourceRef : Type := mkSourceRef {
  source : jsstring;
  page : Z
}.

(** A child element of [#chat-messages]: the [div] that [addMessage] builds
    from its arguments (the role, the content and the sources listed under
    it), such a child after [removeTypingIndicator] has taken an element out
    of it, or the element with id [typing-indicator] that
    [showTypingIndicator] appends.  [addMessage] writes the content into
    [innerHTML] (a bot's through [marked.parse]), so what a [Message] shows
    is for the browser to say. *)
Inductive ChatEntry : Type :=
| Message (role : Role) (content : jsstring) (sources : list SourceRef)
| Altered (entry : ChatEntry)
| TypingIndicator.

(** What the script needs to know of the browser's rendering: whether the
    subtree of a message holds an element with id [typing-indicator], which
    the markup of its text can bring in. *)
Class Browser : Type := {
  holds_indicator_id : ChatEntry -> bool
}.

Inductive ToastType : Type := success | error | warning | info.

(** One call of [showToast]. *)
Definition Toast : Type := (jsstring * ToastType)%type.

Inductive ScreenName : Type := upload_screen | chat_screen.

(** A [fetch] call the script issued. *)
Inductive Request : Type :=
| ReqInit
| ReqUpload (session : jsstring) (files : list File)
| ReqChat (session : jsstring) (query : jsstring).

(** A parsed JSON response body: the fields the script reads, each of which
    may be missing.  The backend answers with JSON objects. *)
Record JsonBody : Type := mkJson {
  session_id : option jsstring;
  detail : option jsstring;
  welcome_message : option jsstring;
  answer : option jsstring;
  context : option (list SourceRef)
}.

(** How a [fetch] settles: the promise rejects (no response), or a response
    arrives with its [ok] flag and a body on which [response.json()] either
    rejects (left, with the error's message) or yields an object. *)
Inductive FetchOutcome : Type :=
| NetworkError (message : jsstring)
| Response (ok : bool) (body : jsstring + JsonBody).

(** A JavaScript [Error]; only its [message] is read. *)
Record JsError : Type := mkError { err_message : jsstring }.

Inductive Result (A : Type) : Type :=
| Returned (a : A)
| Thrown (e : JsError).
Arguments Returned {A} a.
Arguments Thrown {A} e.

(** An outstanding request together with what its continuation captured:
    [initializeSession] nothing, [handleFileUpload] its [files] and the
    [progress] variable of the running interval, [handleSendMessage] its
    [message]. *)
Inductive Pending : Type :=
| PendingInit
| PendingUpload (files : list File) (progress : N)
| PendingChat (message : jsstring).

(** The "processing" requests are the upload and the chat request. *)
Definition is_processing (p : Pending) : bool :=
  match p with
  | PendingInit => false
  | PendingUpload _ _ | PendingChat _ => true
  end.

(** ** Page state *)

(** The [state] object. *)
Record AppState : Type := mkAppState {
  sessionId : option jsstring;
  isProcessing : bool;
  currentFiles : list File
}.

(** The part of the document the script changes.  [toasts] records the
    calls of [showToast] in order; their expiry is presentation. *)
Record Dom : Type := mkDom {
  uploadScreenActive : bool;
  chatScreenActive : bool;
  uploadIdleHidden : bool;
  uploadProcessingHidden : bool;
  uploadZoneInert : bool;          (* style.pointerEvents = 'none' *)
  progressPercent : N;
  chatMessages : list ChatEntry;
  messageInput : jsstring;
  sendBtnDisabled : bool;
  toasts : list Toast
}.

(** The page: the script's state, the document, the tab's [sessionStorage],
    the requests issued since the page loaded, the requests that are still
    outstanding and the [setTimeout] callbacks of successful uploads that
    have not fired yet (each captured [result.welcome_message]). *)
Record Page : Type := mkPage {
  state : AppState;
  elements : Dom;
  sessionStorage : gmap jsstring jsstring;
  requests : list Request;
  inflight : list Pending;
  timers : list (option jsstring)
}.

Definition with_state (f : AppState -> AppState) (p : Page) : Page :=
  mkPage (f (state p)) (elements p) (sessionStorage p) (requests p)
         (inflight p) (timers p).

Definition with_elements (f : Dom -> Dom) (p : Page) : Page :=
  mkPage (state p) (f (elements p)) (sessionStorage p) (requests p)
         (inflight p) (timers p).

Definition set_sessionId (v : option jsstring) : Page -> Page :=
  with_state (fun s => mkAppState v (isProcessing s) (currentFiles s)).

Definition set_isProcessing (v : bool) : Page -> Page :=
  with_state (fun s => mkAppState (sessionId s) v (currentFiles s)).

Definition set_currentFiles (v : list File) : Page -> Page :=
  with_state (fun s => mkAppState (sessionId s) (isProcessing s) v).

Definition set_screens (u c : bool) : Page -> Page :=
  with_elements (fun d =>
    mkDom u c (uploadIdleHidden d) (uploadProcessingHidden d)
          (uploadZoneInert d) (progressPercent d) (chatMessages d)
          (messageInput d) (sendBtnDisabled d) (toasts d)).

Definition set_uploadView (idleHidden processingHidden inert : bool)
  : Page -> Page :=
  with_elements (fun d =>
    mkDom (uploadScreenActive d) (chatScreenActive d) idleHidden
          processingHidden inert (progressPercent d) (chatMessages d)
          (messageInput d) (sendBtnDisabled d) (toasts d)).

Definition set_progressPercent (v : N) : Page -> Page :=
  with_elements (fun d =>
    mkDom (uploadScreenActive d) (chatScreenActive d) (uploadIdleHidden d)
          (uploadProcessingHidden d) (uploadZoneInert d) v (chatMessages d)
          (messageInput d) (sendBtnDisabled d) (toasts d)).

Definition set_chatMessages (v : list ChatEntry) : Page -> Page :=
  with_elements (fun d =>
    mkDom (uploadScreenActive d) (chatScreenActive d) (uploadIdleHidden d)
          (uploadProcessingHidden d) (uploadZoneInert d) (progressPercent d)
          v (messageInput d) (sendBtnDisabled d) (toasts d)).

Definition set_messageInput (v : jsstring) : Page -> Page :=
  with_elements (fun d =>
    mkDom (uploadScreenActive d) (chatScreenActive d) (uploadIdleHidden d)
          (uploadProcessingHidden d) (uploadZoneInert d) (progressPercent d)
          (chatMessages d) v (sendBtnDisabled d) (toasts d)).

Definition set_sendBtnDisabled (v : bool) : Page -> Page :=
  with_elements (fun d =>
    mkDom (uploadScreenActive d) (chatScreenActive d) (uploadIdleHidden d)
          (uploadProcessingHidden d) (uploadZoneInert d) (progressPercent d)
          (chatMessages d) (messageInput d) v (toasts d)).

Definition set_toasts (v : list Toast) : Page -> Page :=
  with_elements (fun d =>
    mkDom (uploadScreenActive d) (chatScreenActive d) (uploadIdleHidden d)
          (uploadProcessingHidden d) (uploadZoneInert d) (progressPercent d)
          (chatMessages d) (messageInput d) (sendBtnDisabled d) v).

Definition set_sessionStorage (v : gmap jsstring jsstring) (p : Page) : Page :=
  mkPage (state p) (elements p) v (requests p) (inflight p) (timers p).

Definition set_requests (v : list Request) (p : Page) : Page :=
  mkPage (state p) (elements p) (sessionStorage p) v (inflight p) (timers p).

Definition set_inflight (v : list Pending) (p : Page) : Page :=
  mkPage (state p) (elements p) (sessionStorage p) (requests p) v (timers p).

Definition set_timers (v : list (option jsstring)) (p : Page) : Page :=
  mkPage (state p) (elements p) (sessionStorage p) (requests p) (inflight p) v.

(** [fetch(...)]: the request goes out. *)
Definition fetch (r : Request) (p : Page) : Page :=
  set_requests (requests p ++ [r]) p.

(** The handler that awaits an outstanding request is suspended; [k] holds
    what it resumes with. *)
Definition suspend (k : Pending) (p : Page) : Page :=
  set_inflight (inflight p ++ [k]) p.

(** ** Utility functions *)

(** [showToast(message, type)]. *)
Definition showToast (message : jsstring) (type : ToastType) (p : Page) : Page :=
  set_toasts (toasts (elements p) ++ [(message, type)]) p.

(** [switchScreen(screen)]: both screens lose [active], then the named one
    gets it. *)
Definition switchScreen (screen : ScreenName) (p : Page) : Page :=
  let p := set_screens false false p in
  match screen with
  | upload_screen => set_screens true (chatScreenActive (elements p)) p
  | chat_screen => set_screens (uploadScreenActive (elements p)) true p
  end.

(** [formatFileSize(CONFIG.MAX_FILE_SIZE)], the only call of
    [formatFileSize]: 10485760 bytes are rendered as 10 MB. *)
Definition formatFileSize_MAX_FILE_SIZE : jsstring := js "10 MB".

(** [updateProgress(percent)]. *)
Definition updateProgress (percent : N) (p : Page) : Page :=
  set_progressPercent percent p.

(** ** API functions *)

(** What the synchronous part of an [async] API function ends in: it
    returned without a request, or it is waiting for the request it
    issued. *)
Inductive Started (A : Type) : Type :=
| Settled (a : A)
| Awaiting.
Arguments Settled {A} a.
Arguments Awaiting {A}.

(** [String(v)] as [sessionStorage.setItem] applies it to its value. *)
Definition to_stored (v : option jsstring) : jsstring :=
  match v with
  | Some s => s
  | None => js "undefined"
  end.

(** [initializeSession()] up to its [await fetch]: a stored identifier is
    installed and returned at once, otherwise the init request goes out. *)
Definition initializeSession (p : Page) : Page * Started (option jsstring) :=
  let sessionId := sessionStorage p !! CONFIG.SESSION_STORAGE_KEY in
  if truthy sessionId
  then (set_sessionId sessionId p, Settled sessionId)
  else (fetch ReqInit p, Awaiting).

(** [initializeSession()] from the point where the init request settles.
    Every failure is caught inside the function: it raises the toast and
    returns [null]. *)
Definition initializeSession_resume (o : FetchOutcome) (p : Page)
  : Page * option jsstring :=
  let failed :=
    (showToast
       (js "Failed to connect to server. Please check if the backend is running.")
       error p, None) in
  match o with
  | NetworkError _ => failed
  | Response false _ => failed
  | Response true (inl _) => failed
  | Response true (inr data) =>
      let sessionId := session_id data in
      let p := set_sessionStorage
                 (<[CONFIG.SESSION_STORAGE_KEY := to_stored sessionId]>
                    (sessionStorage p)) p in
      (set_sessionId sessionId p, sessionId)
  end.

(** [uploadFiles(files)] up to its [await fetch]; without a session it
    raises a toast and returns [false] ([None] here). *)
Definition uploadFiles (files : list File) (p : Page)
  : Page * Started (option JsonBody) :=
  match sessionId (state p) with
  | Some (c :: r) => (fetch (ReqUpload (c :: r) files) p, Awaiting)
  | _ =>
      (showToast (js "No active session. Please refresh the page.") error p,
       Settled None)
  end.

(** [uploadFiles] from the point where the request settles: the parsed body
    is returned, or an error is thrown (logged and thrown again by the
    function's own [catch]). *)
Definition uploadFiles_resume (o : FetchOutcome) : Result (option JsonBody) :=
  match o with
  | NetworkError m => Thrown (mkError m)
  | Response false (inl m) => Thrown (mkError m)
  | Response false (inr errorData) =>
      Thrown (mkError (js_or (detail errorData) (js "Upload failed")))
  | Response true (inl m) => Thrown (mkError m)
  | Response true (inr data) => Returned (Some data)
  end.

(** The [URIError] of [encodeURIComponent]; engines word its message
    differently and the script never reads it. *)
Definition uri_error : JsError := mkError (js "URI malformed").

(** [sendChatMessage(query)] up to its [await fetch].  Without a session it
    raises a toast and returns [null].  With one, the URL is built inside
    the [try]: when [encodeURIComponent(query)] throws, no request goes out
    and the error is thrown on by the function's [catch]. *)
Definition sendChatMessage (query : jsstring) (p : Page)
  : Page * Started (Result (option JsonBody)) :=
  match sessionId (state p) with
  | Some (c :: r) =>
      if well_formed query
      then (fetch (ReqChat (c :: r) query) p, Awaiting)
      else (p, Settled (Thrown uri_error))
  | _ =>
      (showToast (js "No active session. Please refresh the page.") error p,
       Settled (Returned None))
  end.

Definition sendChatMessage_resume (o : FetchOutcome) : Result (option JsonBody) :=
  match o with
  | NetworkError m => Thrown (mkError m)
  | Response false (inl m) => Thrown (mkError m)
  | Response false (inr errorData) =>
      Thrown (mkError (js_or (detail errorData) (js "Chat request failed")))
  | Response true (inl m) => Thrown (mkError m)
  | Response true (inr data) => Returned (Some data)
  end.

(** ** Chat transcript *)

Section Script.

(** The browser the script runs in. *)
Context {browser : Browser}.

(** [addMessage(role, content, context = null)]: the sources block is
    rendered only for a non-empty [context]. *)
Definition addMessage (role : Role) (content : jsstring)
    (context : option (list SourceRef)) (p : Page) : Page :=
  set_chatMessages
    (chatMessages (elements p) ++ [Message role content (default [] context)]) p.

Definition showTypingIndicator (p : Page) : Page :=
  set_chatMessages (chatMessages (elements p) ++ [TypingIndicator]) p.

(** [document.getElementById('typing-indicator')] is the first element with
    that id in document order: the indicator itself, unless a message before
    it holds such an element, which [remove()] then takes out of that
    message while the indicator stays.

    Modelled from the spec: the document is [index.html], which is not among
    the sources.  No element of its own is taken to have this id, and the
    toast container, whose toasts are rendered from text as the messages
    are, is taken to come after [#chat-messages], so that an element with
    this id in a toast is never found before one in the transcript. *)
Fixpoint remove_first_indicator (l : list ChatEntry) : list ChatEntry :=
  match l with
  | [] => []
  | TypingIndicator :: r => r
  | m :: r =>
      if holds_indicator_id m
      then Altered m :: r
      else m :: remove_first_indicator r
  end.

Definition removeTypingIndicator (p : Page) : Page :=
  set_chatMessages (remove_first_indicator (chatMessages (elements p))) p.

(** ** File upload handlers *)

Definition application_pdf : jsstring := js "application/pdf".

(** The messages [validateFiles] pushes for one file. *)
Definition file_errors (file : File) : list jsstring :=
  (if bool_decide (file_type file ≠ application_pdf)
   then [file_name file ++ js ": Only PDF files are allowed"]
   else [])
  ++
  (if CONFIG.MAX_FILE_SIZE <? file_size file
   then [file_name file ++ js ": File size exceeds "
           ++ formatFileSize_MAX_FILE_SIZE ++ js " limit"]
   else []).

(** [validateFiles(files)]. *)
Definition validateFiles (files : list File) : list jsstring :=
  foldl (fun errors file => errors ++ file_errors file) [] files.

Definition welcome_fallback : jsstring :=
  js "I've finished processing your documents. What would you like to explore?".

(** [showWelcomeMessage(files, welcomeMessage = null)]. *)
Definition showWelcomeMessage (files : list File)
    (welcomeMessage : option jsstring) (p : Page) : Page :=
  let displayMessage := js_or welcomeMessage welcome_fallback in
  addMessage bot displayMessage None p.

(** The callback [handleFileUpload] hands to [setTimeout(..., 800)];
    [welcome] is [result.welcome_message] of the captured [result]. *)
Definition uploadTimeout (welcome : option jsstring) (p : Page) : Page :=
  let p := switchScreen chat_screen p in
  showWelcomeMessage (currentFiles (state p)) welcome p.

Definition setTimeout_upload (welcome : option jsstring) (p : Page) : Page :=
  set_timers (timers p ++ [welcome]) p.

(** [handleFileUpload] from the point where [await uploadFiles(files)]
    settles: the [try] body after the await, the [catch] and the
    [finally]. *)
Definition handleFileUpload_settled (r : Result (option JsonBody)) (p : Page)
  : Page :=
  let p :=
    match r with
    | Returned result =>
        let p := updateProgress 100 p in
        let p := showToast
                   (js "Successfully processed "
                      ++ decimal (N.of_nat (length (currentFiles (state p))))
                      ++ js " file(s)") success p in
        setTimeout_upload (result ≫= welcome_message) p
    | Thrown e =>
        let p := showToast
                   (js_or (Some (err_message e))
                      (js "Failed to upload files. Please try again."))
                   error p in
        let p := set_uploadView false true false p in
        updateProgress 0 p
    end in
  set_isProcessing false p.

(** [handleFileUpload(files)] up to [await uploadFiles(files)].  When
    [uploadFiles] returns without a request the awaiting function resumes
    before any other event is handled. *)
Definition handleFileUpload (files : list File) (p : Page) : Page :=
  if isProcessing (state p) then p else
  let errors := validateFiles files in
  if (0 <? length errors)%nat
  then foldl (fun p e => showToast e error p) p errors
  else
    let p := set_isProcessing true p in
    let p := set_currentFiles files p in
    let p := set_uploadView true false true p in
    match uploadFiles files p with
    | (p, Settled result) => handleFileUpload_settled (Returned result) p
    | (p, Awaiting) => suspend (PendingUpload files 0) p
    end.

(** ** Chat functions *)

Definition no_answer_text : jsstring :=
  js "I apologize, but I couldn't generate a response. Please try again.".

(** The text starts with U+26A0 U+FE0F. *)
Definition connection_error_text : jsstring :=
  [9888; 65039]
    ++ js " I'm having trouble connecting to the server. Please check your connection and try again.".

(** [handleSendMessage] from the point where [await sendChatMessage(message)]
    settles: the [try] body after the await, the [catch] and the
    [finally]. *)
Definition handleSendMessage_settled (r : Result (option JsonBody)) (p : Page)
  : Page :=
  let p :=
    match r with
    | Returned response =>
        let p := removeTypingIndicator p in
        match response with
        | Some data =>
            match answer data with
            | Some (c :: r) =>
                addMessage bot (c :: r) (Some (default [] (context data))) p
            | _ => addMessage bot no_answer_text None p
            end
        | None => addMessage bot no_answer_text None p
        end
    | Thrown _ =>
        let p := removeTypingIndicator p in
        let p := addMessage bot connection_error_text None p in
        showToast (js "Failed to send message. Please try again.") error p
    end in
  set_sendBtnDisabled false (set_isProcessing false p).

(** [handleSendMessage()] up to [await sendChatMessage(message)].  When
    [sendChatMessage] returns or throws without a request the awaiting
    function resumes before any other event is handled. *)
Definition handleSendMessage (p : Page) : Page :=
  let message := trim (messageInput (elements p)) in
  if negb (truthy (Some message)) || isProcessing (state p) then p else
  if CONFIG.MAX_MESSAGE_LENGTH <? N.of_nat (length message)
  then showToast
         (js "Message exceeds " ++ decimal CONFIG.MAX_MESSAGE_LENGTH
            ++ js " characters") warning p
  else
    let p := set_isProcessing true p in
    let p := set_sendBtnDisabled true p in
    let p := addMessage user message None p in
    let p := set_messageInput [] p in
    let p := showTypingIndicator p in
    match sendChatMessage message p with
    | (p, Settled r) => handleSendMessage_settled r p
    | (p, Awaiting) => suspend (PendingChat message) p
    end.

(** [clearChat()]; [confirmed] is the answer to the [confirm] dialog. *)
Definition clearChat (confirmed : bool) (p : Page) : Page :=
  if confirmed
  then showToast (js "Chat cleared") info (set_chatMessages [] p)
  else p.

(** ** Initialization *)

(** Modelled from the spec: the document the script starts on is
    [index.html], which is not among the sources.  The upload screen is the
    active one, its idle view is shown, the transcript and the input are
    empty. *)
Definition initial_elements : Dom :=
  mkDom true false false true false 0 [] [] false [].

(** The page as the script finds it, with the tab's [sessionStorage]. *)
Definition fresh_page (storage : gmap jsstring jsstring) : Page :=
  mkPage (mkAppState None false []) initial_elements storage [] [] [].

(** The end of [initializeApp()], after [await initializeSession()]. *)
Definition initializeApp_settled (sessionId : option jsstring) (p : Page)
  : Page :=
  if truthy sessionId
  then showToast (js "Welcome to Smart Tutor AI!") success p
  else showToast (js "Failed to initialize. Please refresh the page.") error p.

(** [initializeApp()] up to [await initializeSession()]. *)
Definition initializeApp (p : Page) : Page :=
  match initializeSession p with
  | (p, Settled sessionId) => initializeApp_settled sessionId p
  | (p, Awaiting) => suspend PendingInit p
  end.

(** [startNewSession()]: the stored identifier is removed and the page is
    loaded again, which runs the script from the top. *)
Definition startNewSession (confirmed : bool) (p : Page) : Page :=
  if confirmed
  then initializeApp
         (fresh_page (delete CONFIG.SESSION_STORAGE_KEY (sessionStorage p)))
  else p.

(** ** Events *)

(** What the page reacts to: the listeners the script registers, a request
    settling, a tick of an upload's progress interval (with the amount the
    random increment comes to) and an upload's 800 ms timeout. *)
Inductive Event : Type :=
| FileInputChange (files : list File)
| UploadZoneDrop (files : list File)
| SendTrigger
| MessageInputEdit (value : jsstring)
| ClearClick (confirmed : bool)
| NewSessionClick (confirmed : bool)
| FetchSettles (i : nat) (o : FetchOutcome)
| IntervalTick (i : nat) (increment : N)
| TimeoutFires (i : nat).

Definition intervalTick (i : nat) (increment : N) (p : Page) : Page :=
  match inflight p !! i with
  | Some (PendingUpload files progress) =>
      let progress := progress + increment in
      let progress := if 90 <? progress then 90 else progress in
      updateProgress progress
        (set_inflight (<[i := PendingUpload files progress]> (inflight p)) p)
  | _ => p
  end.

Definition fetchSettles (i : nat) (o : FetchOutcome) (p : Page) : Page :=
  match inflight p !! i with
  | None => p
  | Some k =>
      let p := set_inflight (delete i (inflight p)) p in
      match k with
      | PendingInit =>
          let (p, sessionId) := initializeSession_resume o p in
          initializeApp_settled sessionId p
      | PendingUpload _ _ => handleFileUpload_settled (uploadFiles_resume o) p
      | PendingChat _ => handleSendMessage_settled (sendChatMessage_resume o) p
      end
  end.

Definition timeoutFires (i : nat) (p : Page) : Page :=
  match timers p !! i with
  | None => p
  | Some welcome => uploadTimeout welcome (set_timers (delete i (timers p)) p)
  end.

Definition step (p : Page) (ev : Event) : Page :=
  match ev with
  | FileInputChange files =>
      if (0 <? length files)%nat then handleFileUpload files p else p
  | UploadZoneDrop files =>
      if (0 <? length files)%nat && negb (isProcessing (state p))
      then handleFileUpload files p else p
  | SendTrigger => handleSendMessage p
  | MessageInputEdit value => set_messageInput value p
  | ClearClick confirmed => clearChat confirmed p
  | NewSessionClick confirmed => startNewSession confirmed p
  | FetchSettles i o => fetchSettles i o p
  | IntervalTick i increment => intervalTick i increment p
  | TimeoutFires i => timeoutFires i p
  end.

(** The page after the script has run on load and the events of [evs] have
    been handled in order. *)
Definition run (storage : gmap jsstring jsstring) (evs : list Event) : Page :=
  foldl step (initializeApp (fresh_page storage)) evs.


(** ** Vocabulary of the properties *)

(** *** Files *)

Definition file_ok (f : File) : Prop :=
  file_type f = js "application/pdf" /\ file_size f <= 10 * 1024 * 1024.

Definition non_pdf (f : File) : bool :=
  bool_decide (file_type f ≠ application_pdf).

Definition oversized (f : File) : bool :=
  CONFIG.MAX_FILE_SIZE <? file_size f.

Definition offending (f : File) : bool := non_pdf f || oversized f.

(** *** Outstanding requests and typing indicators *)

Definition is_chat (k : Pending) : bool :=
  match k with
  | PendingChat _ => true
  | _ => false
  end.

Fixpoint cnt (f : Pending -> bool) (l : list Pending) : nat :=
  match l with
  | [] => 0
  | k :: r => (if f k then 1 else 0) + cnt f r
  end.


(** What holds between any two events: while the flag is clear no
    processing request is outstanding; while it is set exactly one is. *)
Definition Inv (p : Page) : Prop :=
  (isProcessing (state p) = false ->
   cnt is_processing (inflight p) = 0%nat) /\
  (isProcessing (state p) = true ->
   cnt is_processing (inflight p) = 1%nat).


(** The entry as [addMessage] built it. *)
Fixpoint origin (e : ChatEntry) : ChatEntry :=
  match e with
  | Altered e' => origin e'
  | _ => e
  end.


(** *** What the workflows leave behind *)

Definition no_session_toast : Toast :=
  (js "No active session. Please refresh the page.", error).

Definition send_failed_toast : Toast :=
  (js "Failed to send message. Please try again.", error).

Definition session_failed_toast : Toast :=
  (js "Failed to connect to server. Please check if the backend is running.",
   error).

(** The bot message a settled send appends, and the toasts it raises. *)
Definition reply_of (r : Result (option JsonBody)) : ChatEntry :=
  match r with
  | Returned (Some data) =>
      match answer data with
      | Some (c :: t) => Message bot (c :: t) (default [] (context data))
      | _ => Message bot no_answer_text []
      end
  | Returned None => Message bot no_answer_text []
  | Thrown _ => Message bot connection_error_text []
  end.

Definition toasts_of (r : Result (option JsonBody)) : list Toast :=
  match r with
  | Returned _ => []
  | Thrown _ => [send_failed_toast]
  end.

(** The toast an upload's outcome raises. *)
Definition upload_toast (files : list File) (r : Result (option JsonBody))
  : Toast :=
  match r with
  | Returned _ =>
      (js "Successfully processed " ++ decimal (N.of_nat (length files))
         ++ js " file(s)", success)
  | Thrown e =>
      (js_or (Some (err_message e))
         (js "Failed to upload files. Please try again."), error)
  end.

(** The page [handleSendMessage] has built when it calls
    [sendChatMessage(message)]. *)
Definition composed (message : jsstring) (p : Page) : Page :=
  showTypingIndicator
    (set_messageInput []
       (addMessage user message None
          (set_sendBtnDisabled true (set_isProcessing true p)))).

(** The page [handleFileUpload] has built when it calls
    [uploadFiles(files)]. *)
Definition uploading (files : list File) (p : Page) : Page :=
  set_uploadView true false true
    (set_currentFiles files (set_isProcessing true p)).

(** The outcomes of the init request that do not yield an identifier: no
    response, a response that is not [ok], a body that does not parse. *)
Definition init_failed (o : FetchOutcome) : Prop :=
  match o with
  | Response true (inr _) => False
  | _ => True
  end.

(** *** Sample pages, files, messages and responses *)

(** A text whose markup is an element with the indicator's id. *)
Definition markup_message : jsstring :=
  js "<span id=typing-indicator>x</span>".

(** The browser of the examples: of the texts the examples use, only
    [markup_message] renders to a message that holds an element with the
    indicator's id, and once that element has been taken out the message
    holds none. *)
Definition sample_browser : Browser :=
  {| holds_indicator_id :=
       fun e => match e with
                | Message _ content _ => bool_decide (content = markup_message)
                | _ => false
                end |}.

(** A page with a session and nothing in flight, and the same page while an
    operation is in flight. *)
Definition ready_page : Page :=
  set_sessionId (Some (js "s-1")) (fresh_page ∅).

Definition busy_page : Page := set_isProcessing true ready_page.

Definition stored_page : Page :=
  fresh_page {[ js "smart_tutor_session_id" := js "s-7" ]}.

Definition entropy_page : Page :=
  set_messageInput (js " What is entropy? ") ready_page.

Definition no_session_page : Page :=
  set_messageInput (js "What is entropy?") (fresh_page ∅).

Definition chapter3_pdf : File :=
  mkFile (js "chapter3.pdf") (js "application/pdf") (5 * 1024 * 1024).

Definition notes_docx : File :=
  mkFile (js "notes.docx")
    (js "application/vnd.openxmlformats-officedocument.wordprocessingml.document")
    4096.

(** Neither a PDF nor within the limit. *)
Definition huge_scan : File :=
  mkFile (js "scan.tiff") (js "image/tiff") (11 * 1024 * 1024).

(** One letter followed by 2000 blanks, and 2001 letters. *)
Definition padded_message : jsstring := js "a" ++ repeat 32 2000.

Definition long_message : jsstring := repeat 97 2001.

Definition chapter3_response : JsonBody :=
  mkJson None None (Some (js "Ask me anything about Chapter 3")) None None.

Definition rejected_response : FetchOutcome :=
  Response false
    (inr (mkJson None (Some (js "Could not read chapter3.pdf")) None None None)).

(** ** The character counter *)

(** The two values [updateCharCounter] gives [style.color]:
    [var(--error)] and [var(--text-tertiary)]. *)
Inductive CounterColor : Type := color_error | color_text_tertiary.

(** What [updateCharCounter] leaves on [#char-counter]. *)
Record CharCounter : Type := mkCharCounter {
  counter_text : jsstring;
  counter_hidden : bool;
  counter_color : CounterColor
}.

(** [updateCharCounter()]: it reads the input's value and overwrites the
    counter's text, its [hidden] class and its colour, so the counter is a
    function of the value.  [CONFIG.MAX_MESSAGE_LENGTH * 0.9] is 1800. *)
Definition updateCharCounter (p : Page) : CharCounter :=
  let length := N.of_nat (length (messageInput (elements p))) in
  mkCharCounter
    (decimal length ++ js " / " ++ decimal CONFIG.MAX_MESSAGE_LENGTH)
    (negb (0 <? length))
    (if 1800 <? length then color_error else color_text_tertiary).

(** ** Reloading the page *)

(** The page is loaded again in the same tab, as the failure toasts ask
    for: the script runs from the top and the tab's [sessionStorage] is
    what it was. *)
Definition reload (p : Page) : Page :=
  initializeApp (fresh_page (sessionStorage p)).

(** ** Vocabulary of the further properties *)

Definition is_init (k : Pending) : bool :=
  match k with
  | PendingInit => true
  | _ => false
  end.

Definition is_upload (k : Pending) : bool :=
  match k with
  | PendingUpload _ _ => true
  | _ => false
  end.

(** The messages of a transcript: its entries without the typing
    indicator. *)
Fixpoint messages (l : list ChatEntry) : list ChatEntry :=
  match l with
  | [] => []
  | TypingIndicator :: r => messages r
  | m :: r => m :: messages r
  end.

(** A query as the chat request may carry it: not empty, within the limit,
    no whitespace at either end. *)
Definition query_ok (q : jsstring) : Prop :=
  q <> [] /\
  N.of_nat (length q) <= 2000 /\
  (forall c, head q = Some c -> isWhiteSpace c = false) /\
  (forall c, last q = Some c -> isWhiteSpace c = false).

Definition is_ReqInit (r : Request) : bool :=
  match r with
  | ReqInit => true
  | _ => false
  end.

(** A request that carries a session: the identifier is the one stored in
    the tab, the batch of an upload is not empty and holds valid files only,
    the query of a chat request is well formed. *)
Definition request_ok (storage : gmap jsstring jsstring) (r : Request) : Prop :=
  match r with
  | ReqInit => True
  | ReqUpload sid files =>
      storage !! CONFIG.SESSION_STORAGE_KEY = Some sid /\ sid <> [] /\
      files <> [] /\ Forall file_ok files
  | ReqChat sid q =>
      storage !! CONFIG.SESSION_STORAGE_KEY = Some sid /\ sid <> [] /\
      query_ok q
  end.

(** Which of the two screens carry the [active] class: the upload screen
    first, the chat screen second. *)
Definition screens (p : Page) : bool * bool :=
  (uploadScreenActive (elements p), chatScreenActive (elements p)).

(** The events that are not the user's confirmed wish to empty the
    transcript or to start over. *)
Definition keeps_transcript (ev : Event) : bool :=
  match ev with
  | ClearClick true | NewSessionClick true => false
  | _ => true
  end.

(** What holds of the session between any two events: the identifier in
    [state] is the stored one; every request issued fits [request_ok]; at
    most one init request is outstanding, and while it is, no identifier is
    installed and nothing but the init request has been issued. *)
Definition SessionInv (p : Page) : Prop :=
  (forall s, sessionId (state p) = Some s ->
             sessionStorage p !! CONFIG.SESSION_STORAGE_KEY = Some s) /\
  Forall (request_ok (sessionStorage p)) (requests p) /\
  (cnt is_init (inflight p) <= 1)%nat /\
  (cnt is_init (inflight p) = 1%nat ->
   sessionId (state p) = None /\ requests p = [ReqInit]) /\
  (exists rest, (requests p = rest \/ requests p = ReqInit :: rest) /\
                Forall (fun r => is_ReqInit r = false) rest).

(** What holds of the controls between any two events: the send button is
    disabled exactly while a chat request is outstanding; while an upload is
    outstanding the upload zone shows its processing view and is inert, and
    [state.currentFiles] is the batch of that upload. *)
Definition ControlsInv (p : Page) : Prop :=
  sendBtnDisabled (elements p) = (0 <? cnt is_chat (inflight p))%nat /\
  (forall i files progress,
     inflight p !! i = Some (PendingUpload files progress) ->
     currentFiles (state p) = files /\
     uploadIdleHidden (elements p) = true /\
     uploadProcessingHidden (elements p) = false /\
     uploadZoneInert (elements p) = true).

(** * Properties *)

(** Reading a field of a page that the setters above have built. *)
Ltac page_simpl :=
  cbn [state elements sessionStorage requests inflight timers
       sessionId isProcessing currentFiles
       uploadScreenActive chatScreenActive uploadIdleHidden
       uploadProcessingHidden uploadZoneInert progressPercent chatMessages
       messageInput sendBtnDisabled toasts
       with_state with_elements set_sessionId set_isProcessing
       set_currentFiles set_screens set_uploadView set_progressPercent
       set_chatMessages set_messageInput set_sendBtnDisabled set_toasts
       set_sessionStorage set_requests set_inflight set_timers
       fetch suspend showToast switchScreen updateProgress addMessage
       showTypingIndicator removeTypingIndicator setTimeout_upload].

Tactic Notation "page_simpl" "in" hyp(H) :=
  cbn [state elements sessionStorage requests inflight timers
       sessionId isProcessing currentFiles
       uploadScreenActive chatScreenActive uploadIdleHidden
       uploadProcessingHidden uploadZoneInert progressPercent chatMessages
       messageInput sendBtnDisabled toasts
       with_state with_elements set_sessionId set_isProcessing
       set_currentFiles set_screens set_uploadView set_progressPercent
       set_chatMessages set_messageInput set_sendBtnDisabled set_toasts
       set_sessionStorage set_requests set_inflight set_timers
       fetch suspend showToast switchScreen updateProgress addMessage
       showTypingIndicator removeTypingIndicator setTimeout_upload] in H.

(** ** Validation of the selected files *)

Lemma file_errors_nil (f : File) : file_errors f = [] <-> file_ok f.
Proof.
  unfold file_errors, file_ok, CONFIG.MAX_FILE_SIZE.
  change (js "application/pdf") with application_pdf.
  destruct (bool_decide_reflect (file_type f ≠ application_pdf)) as [Hne | He];
    destruct (N.ltb_spec (10 * 1024 * 1024) (file_size f)) as [Hlt | Hle].
  all: split; intros H.
  all: try discriminate H.
  all: try (match type of H with _ /\ _ => destruct H end).
  all: try contradiction.
  all: try (exfalso; lia).
  all: try reflexivity.
  split; [ | exact Hle].
  destruct (decide (file_type f = application_pdf)); tauto.
Qed.


Lemma validateFiles_acc (files : list File) (acc : list jsstring) :
  foldl (fun errors file => errors ++ file_errors file) acc files
  = acc ++ concat (map file_errors files).
Proof.
  revert acc. induction files as [ | f files IH]; intros acc; simpl.
  - now rewrite app_nil_r.
  - rewrite IH. now rewrite <- app_assoc.
Qed.

Lemma validateFiles_concat (files : list File) :
  validateFiles files = concat (map file_errors files).
Proof. unfold validateFiles. now rewrite validateFiles_acc. Qed.

Lemma validateFiles_nil (files : list File) :
  validateFiles files = [] <-> Forall file_ok files.
Proof.
  rewrite validateFiles_concat.
  induction files as [ | f files IH]; simpl.
  - split; [constructor | reflexivity].
  - split.
    + intros H. apply app_eq_nil in H as [Hf Hr].
      constructor; [now apply file_errors_nil | now apply IH].
    + intros H. apply list.Forall_cons in H as [Hf Hr].
      apply file_errors_nil in Hf. apply IH in Hr. now rewrite Hf, Hr.
Qed.


(** Raising one toast per collected message leaves everything but the
    toasts as it was. *)
Lemma forEach_showToast (errors : list jsstring) (p : Page) :
  foldl (fun p e => showToast e error p) p errors
  = set_toasts (toasts (elements p) ++ map (fun e => (e, error)) errors) p.
Proof.
  revert p. induction errors as [ | e errors IH]; intros p.
  - destruct p as [s d st rq fl tm]; destruct d; simpl.
    unfold set_toasts, with_elements; simpl. now rewrite app_nil_r.
  - simpl. rewrite IH.
    destruct p as [s d st rq fl tm]; destruct d; simpl.
    unfold set_toasts, with_elements, showToast; simpl.
    now rewrite <- app_assoc.
Qed.

(** A batch with a rejected file: what [handleFileUpload] comes to. *)
Lemma handleFileUpload_rejected (files : list File) (p : Page) :
  validateFiles files <> [] ->
  handleFileUpload files p
  = if isProcessing (state p) then p
    else set_toasts (toasts (elements p)
                       ++ map (fun e => (e, error)) (validateFiles files)) p.
Proof.
  intros Hne. unfold handleFileUpload.
  destruct (isProcessing (state p)); [reflexivity | ].
  destruct (validateFiles files) as [ | e errors] eqn:E; [congruence | ].
  change (0 <? length (e :: errors))%nat with true. cbv iota.
  apply forEach_showToast.
Qed.

(** C2: the validation of the upload workflow passes exactly when every
    selected file has MIME type [application/pdf] and is at most 10 MiB; as
    soon as one file breaks a rule the whole batch is given up before any
    request: no request goes out, none is left outstanding and the script's
    state is untouched, so the valid files of the batch are not uploaded
    either. *)
Theorem upload_validation_gate (files : list File) :
  (validateFiles files = [] <-> Forall file_ok files) /\
  (forall p : Page,
     ~ Forall file_ok files ->
     requests (handleFileUpload files p) = requests p /\
     inflight (handleFileUpload files p) = inflight p /\
     state (handleFileUpload files p) = state p).
Proof.
  split; [apply validateFiles_nil | ].
  intros p Hbad.
  assert (Hne : validateFiles files <> [])
    by (intros E; apply Hbad; now apply validateFiles_nil).
  rewrite (handleFileUpload_rejected files p Hne).
  destruct (isProcessing (state p)); auto.
Qed.

(** ** One notification per violated rule *)


(** ** Validation of the message *)

Lemma decimal_MAX_MESSAGE_LENGTH :
  js "Message exceeds " ++ decimal CONFIG.MAX_MESSAGE_LENGTH ++ js " characters"
  = js "Message exceeds 2000 characters".
Proof. reflexivity. Qed.

(** C3 (amended): when the input, after trimming, is empty or longer than
    2000 characters, no chat request is issued and nothing is appended to
    the transcript; when the trimmed text is over the limit and no operation
    is in flight, exactly one warning notification is raised. *)
Theorem invalid_message_not_sent (p : Page) :
  trim (messageInput (elements p)) = []
  \/ 2000 < N.of_nat (length (trim (messageInput (elements p)))) ->
  requests (handleSendMessage p) = requests p /\
  inflight (handleSendMessage p) = inflight p /\
  chatMessages (elements (handleSendMessage p)) = chatMessages (elements p) /\
  (2000 < N.of_nat (length (trim (messageInput (elements p)))) ->
   isProcessing (state p) = false ->
   toasts (elements (handleSendMessage p))
   = toasts (elements p) ++ [(js "Message exceeds 2000 characters", warning)]).
Proof.
  intros H. unfold handleSendMessage.
  destruct (trim (messageInput (elements p))) as [ | c m] eqn:E.
  - simpl. repeat split. intros Hlt. simpl in Hlt. lia.
  - destruct H as [H | H]; [discriminate | ].
    simpl truthy. simpl negb. simpl orb.
    destruct (isProcessing (state p)) eqn:B.
    + repeat split. intros _ B'. discriminate.
    + assert (Hb : (CONFIG.MAX_MESSAGE_LENGTH <? N.of_nat (length (c :: m)))
                   = true) by (apply N.ltb_lt; exact H).
      rewrite Hb, decimal_MAX_MESSAGE_LENGTH. repeat split.
Qed.

(** ** The busy flag *)


Lemma cnt_app (f : Pending -> bool) (l1 l2 : list Pending) :
  cnt f (l1 ++ l2) = (cnt f l1 + cnt f l2)%nat.
Proof. induction l1 as [ | k l1 IH]; simpl; [reflexivity | rewrite IH; lia]. Qed.

Lemma cnt_delete (f : Pending -> bool) (l : list Pending) (i : nat) (k : Pending) :
  l !! i = Some k ->
  cnt f l = ((if f k then 1 else 0) + cnt f (delete i l))%nat.
Proof.
  revert i. induction l as [ | x l IH]; intros [ | i] H; simpl in *;
    try discriminate.
  - now injection H as ->.
  - rewrite (IH i H). lia.
Qed.

Lemma cnt_insert (f : Pending -> bool) (l : list Pending) (i : nat)
    (k k' : Pending) :
  l !! i = Some k -> f k' = f k -> cnt f (<[i := k']> l) = cnt f l.
Proof.
  revert i. induction l as [ | x l IH]; intros [ | i] H E; simpl in *;
    try discriminate.
  - injection H as ->. now rewrite E.
  - now rewrite (IH i H E).
Qed.

Lemma cnt_chat_le (l : list Pending) : (cnt is_chat l <= cnt is_processing l)%nat.
Proof.
  induction l as [ | k l IH]; simpl; [lia | ].
  destruct k; simpl; lia.
Qed.





Lemma Inv_idle (p : Page) :
  isProcessing (state p) = false ->
  cnt is_processing (inflight p) = 0%nat ->
  Inv p.
Proof. intros B C. split; intros B'; [auto | congruence]. Qed.

Lemma Inv_busy (p : Page) :
  isProcessing (state p) = true ->
  cnt is_processing (inflight p) = 1%nat ->
  Inv p.
Proof. intros B C. split; intros B'; [congruence | auto]. Qed.

Lemma handleFileUpload_Inv (files : list File) (p : Page) :
  Inv p -> Inv (handleFileUpload files p).
Proof.
  intros HI. unfold handleFileUpload.
  destruct (isProcessing (state p)) eqn:B; [exact HI | ].
  pose proof (proj1 HI B) as Hc.
  destruct (validateFiles files) as [ | e es] eqn:V.
  - simpl. unfold uploadFiles. simpl.
    destruct (sessionId (state p)) as [[ | c r] | ].
    + apply Inv_idle; simpl; auto.
    + apply Inv_busy; simpl; auto.
      rewrite cnt_app, Hc. reflexivity.
    + apply Inv_idle; simpl; auto.
  - change (0 <? length (e :: es))%nat with true. cbv iota.
    rewrite forEach_showToast. apply Inv_idle; simpl; auto.
Qed.

Lemma handleSendMessage_Inv (p : Page) : Inv p -> Inv (handleSendMessage p).
Proof.
  intros HI. unfold handleSendMessage.
  destruct (negb (truthy (Some (trim (messageInput (elements p))))));
    [exact HI | ].
  simpl orb.
  destruct (isProcessing (state p)) eqn:B; [exact HI | ].
  pose proof (proj1 HI B) as Hc.
  destruct (_ <? _).
  - apply Inv_idle; simpl; auto.
  - unfold sendChatMessage. simpl.
    destruct (sessionId (state p)) as [[ | c r] | ].
    + apply Inv_idle; simpl; auto.
    + destruct (well_formed (trim (messageInput (elements p)))).
      * apply Inv_busy; simpl; auto.
        rewrite cnt_app, Hc. reflexivity.
      * apply Inv_idle; simpl; auto.
    + apply Inv_idle; simpl; auto.
Qed.

Lemma initializeApp_fresh_Inv (storage : gmap jsstring jsstring) :
  Inv (initializeApp (fresh_page storage)).
Proof.
  unfold initializeApp, initializeSession. simpl.
  destruct (truthy (storage !! CONFIG.SESSION_STORAGE_KEY)) eqn:T.
  - unfold initializeApp_settled. rewrite T. apply Inv_idle; reflexivity.
  - apply Inv_idle; reflexivity.
Qed.

Lemma fetchSettles_Inv (i : nat) (o : FetchOutcome) (p : Page) :
  Inv p -> Inv (fetchSettles i o p).
Proof.
  intros HI. unfold fetchSettles.
  destruct (inflight p !! i) as [k | ] eqn:L; [ | exact HI].
  pose proof (cnt_delete is_processing _ _ _ L) as Dp.
  assert (Hbusy : is_processing k = true ->
                  cnt is_processing (delete i (inflight p)) = 0%nat).
  { intros K. rewrite K in Dp.
    destruct (isProcessing (state p)) eqn:B.
    - pose proof (proj2 HI B). lia.
    - pose proof (proj1 HI B). lia. }
  destruct k as [ | files progress | message]; simpl in Dp.
  - assert (HI' : Inv (set_inflight (delete i (inflight p)) p)).
    { destruct HI as [H0 H1]. split; simpl; intros B; rewrite <- Dp; auto. }
    revert HI'. generalize (set_inflight (delete i (inflight p)) p). intros q HI'.
    unfold initializeSession_resume, initializeApp_settled.
    destruct o as [m | [ | ] [m | data]];
      repeat match goal with
             | |- context [truthy ?x] => destruct (truthy x)
             end; apply HI'.
  - specialize (Hbusy eq_refl). unfold handleFileUpload_settled.
    destruct (uploadFiles_resume o); apply Inv_idle; simpl; auto.
  - specialize (Hbusy eq_refl). unfold handleSendMessage_settled.
    destruct (sendChatMessage_resume o) as [[data | ] | e];
      [destruct (answer data) as [[ | c r] | ] | | ];
      apply Inv_idle; simpl; auto.
Qed.

Lemma intervalTick_Inv (i : nat) (d : N) (p : Page) :
  Inv p -> Inv (intervalTick i d p).
Proof.
  intros HI. unfold intervalTick.
  destruct (inflight p !! i) as [[ | files progress | message] | ] eqn:L;
    try exact HI.
  set (k := PendingUpload files _).
  assert (Ep : cnt is_processing (<[i := k]> (inflight p))
               = cnt is_processing (inflight p))
    by (apply cnt_insert with (k := PendingUpload files progress); auto).
  destruct HI as [H0 H1]. split; simpl; intros B; rewrite Ep; auto.
Qed.

Lemma timeoutFires_Inv (i : nat) (p : Page) : Inv p -> Inv (timeoutFires i p).
Proof.
  intros HI. unfold timeoutFires.
  destruct (timers p !! i) as [w | ]; [ | exact HI]. exact HI.
Qed.

(** Every event keeps the invariant. *)
Lemma step_Inv (p : Page) (ev : Event) : Inv p -> Inv (step p ev).
Proof.
  intros HI. destruct ev as [files | files | | value | c | c | i o | i d | i];
    simpl.
  - destruct (0 <? length files)%nat; [now apply handleFileUpload_Inv | exact HI].
  - destruct (_ && _); [now apply handleFileUpload_Inv | exact HI].
  - now apply handleSendMessage_Inv.
  - exact HI.
  - destruct c; exact HI.
  - destruct c; [apply initializeApp_fresh_Inv | exact HI].
  - now apply fetchSettles_Inv.
  - now apply intervalTick_Inv.
  - now apply timeoutFires_Inv.
Qed.







(** ** The chat workflow *)

(** The two fixed bot texts differ. *)
Lemma no_answer_text_is_not_error : no_answer_text <> connection_error_text.
Proof. discriminate. Qed.

(** Which outcomes make [sendChatMessage] throw: every one but a success
    response with a parseable body. *)
Lemma sendChatMessage_thrown (o : FetchOutcome) :
  (exists e, sendChatMessage_resume o = Thrown e)
  <-> (forall data, o <> Response true (inr data)).
Proof.
  split.
  - intros [e H] data ->. discriminate H.
  - intros H. destruct o as [m | [ | ] [m | data]]; simpl; eauto.
    now destruct (H data).
Qed.

Lemma handleSendMessage_settled_effect (r : Result (option JsonBody)) (q : Page) :
  chatMessages (elements (handleSendMessage_settled r q))
  = remove_first_indicator (chatMessages (elements q)) ++ [reply_of r] /\
  toasts (elements (handleSendMessage_settled r q))
  = toasts (elements q) ++ toasts_of r /\
  requests (handleSendMessage_settled r q) = requests q /\
  inflight (handleSendMessage_settled r q) = inflight q /\
  state (handleSendMessage_settled r q)
  = mkAppState (sessionId (state q)) false (currentFiles (state q)) /\
  sendBtnDisabled (elements (handleSendMessage_settled r q)) = false.
Proof.
  unfold handleSendMessage_settled, reply_of.
  destruct r as [[data | ] | e];
    [destruct (answer data) as [[ | c t] | ] | | ]; simpl;
    rewrite ?app_nil_r; repeat split.
Qed.


Lemma delete_last (A : Type) (l : list A) (x : A) :
  (l ++ [x]) !! length l = Some x /\ delete (length l) (l ++ [x]) = l.
Proof.
  split.
  - rewrite lookup_app_r by lia. now rewrite Nat.sub_diag.
  - induction l as [ | k l IH]; simpl; [reflexivity | now rewrite IH].
Qed.

Section ChatSend.

(** A page on which a send passes the entry guard and the validation:
    no operation is in flight and the message is non-empty after trimming
    and within the limit. *)
Variable p : Page.

Hypothesis idle : isProcessing (state p) = false.
Hypothesis non_empty : trim (messageInput (elements p)) <> [].
Hypothesis within_limit :
  N.of_nat (length (trim (messageInput (elements p)))) <= 2000.

Lemma handleSendMessage_passes :
  handleSendMessage p
  = match sendChatMessage (trim (messageInput (elements p)))
            (composed (trim (messageInput (elements p))) p) with
    | (q, Settled r) => handleSendMessage_settled r q
    | (q, Awaiting) =>
        suspend (PendingChat (trim (messageInput (elements p)))) q
    end.
Proof.
  unfold handleSendMessage. rewrite idle.
  assert (L : (CONFIG.MAX_MESSAGE_LENGTH
               <? N.of_nat (length (trim (messageInput (elements p)))))
              = false) by (apply N.ltb_ge; exact within_limit).
  rewrite L.
  destruct (trim (messageInput (elements p)));
    [now destruct non_empty | reflexivity].
Qed.

(** With a session and a message that can be encoded the request goes out
    and the handler is suspended. *)
Lemma handleSendMessage_sent (sid : jsstring) :
  well_formed (trim (messageInput (elements p))) = true ->
  sessionId (state p) = Some sid -> sid <> [] ->
  handleSendMessage p
  = suspend (PendingChat (trim (messageInput (elements p))))
      (fetch (ReqChat sid (trim (messageInput (elements p))))
         (composed (trim (messageInput (elements p))) p)).
Proof.
  intros W S Hsid. rewrite handleSendMessage_passes.
  unfold sendChatMessage, composed. page_simpl. rewrite S.
  destruct sid; [now destruct Hsid | now rewrite W].
Qed.

(** With a session and a message that cannot be encoded,
    [encodeURIComponent] throws: no request goes out and the [catch] branch
    runs at once. *)
Lemma handleSendMessage_not_encoded (sid : jsstring) :
  well_formed (trim (messageInput (elements p))) = false ->
  sessionId (state p) = Some sid -> sid <> [] ->
  handleSendMessage p
  = handleSendMessage_settled (Thrown uri_error)
      (composed (trim (messageInput (elements p))) p).
Proof.
  intros W S Hsid. rewrite handleSendMessage_passes.
  unfold sendChatMessage, composed. page_simpl. rewrite S.
  destruct sid; [now destruct Hsid | now rewrite W].
Qed.

(** Without a session no request goes out and the send ends at once. *)
Lemma handleSendMessage_no_session :
  truthy (sessionId (state p)) = false ->
  handleSendMessage p
  = handleSendMessage_settled (Returned None)
      (showToast (js "No active session. Please refresh the page.") error
         (composed (trim (messageInput (elements p))) p)).
Proof.
  intros S. rewrite handleSendMessage_passes.
  unfold sendChatMessage, composed. page_simpl.
  destruct (sessionId (state p)) as [[ | c r] | ];
    [reflexivity | discriminate | reflexivity].
Qed.

End ChatSend.










(** ** The upload workflow *)

Lemma handleFileUpload_settled_effect (r : Result (option JsonBody)) (q : Page) :
  toasts (elements (handleFileUpload_settled r q))
  = toasts (elements q) ++ [upload_toast (currentFiles (state q)) r] /\
  state (handleFileUpload_settled r q)
  = mkAppState (sessionId (state q)) false (currentFiles (state q)) /\
  requests (handleFileUpload_settled r q) = requests q /\
  inflight (handleFileUpload_settled r q) = inflight q /\
  chatMessages (elements (handleFileUpload_settled r q))
  = chatMessages (elements q) /\
  uploadScreenActive (elements (handleFileUpload_settled r q))
  = uploadScreenActive (elements q) /\
  chatScreenActive (elements (handleFileUpload_settled r q))
  = chatScreenActive (elements q) /\
  timers (handleFileUpload_settled r q)
  = match r with
    | Returned result => timers q ++ [result ≫= welcome_message]
    | Thrown _ => timers q
    end.
Proof.
  unfold handleFileUpload_settled. destruct r as [result | e]; simpl;
    repeat split.
Qed.

Section UploadAttempt.

(** A page and a batch on which an upload passes the entry guard and the
    validation. *)
Variable p : Page.
Variable files : list File.

Hypothesis idle : isProcessing (state p) = false.
Hypothesis valid : Forall file_ok files.

Lemma handleFileUpload_passes :
  handleFileUpload files p
  = match uploadFiles files (uploading files p) with
    | (q, Settled result) => handleFileUpload_settled (Returned result) q
    | (q, Awaiting) => suspend (PendingUpload files 0) q
    end.
Proof.
  unfold handleFileUpload. rewrite idle.
  apply validateFiles_nil in valid. rewrite valid. reflexivity.
Qed.

Lemma handleFileUpload_sent (sid : jsstring) :
  sessionId (state p) = Some sid -> sid <> [] ->
  handleFileUpload files p
  = suspend (PendingUpload files 0)
      (fetch (ReqUpload sid files) (uploading files p)).
Proof.
  intros S Hsid. rewrite handleFileUpload_passes.
  unfold uploadFiles. simpl. rewrite S.
  destruct sid; [now destruct Hsid | reflexivity].
Qed.

(** The request of this upload settling right after it. *)
Lemma upload_settles (sid : jsstring) (o : FetchOutcome) :
  sessionId (state p) = Some sid -> sid <> [] ->
  fetchSettles (length (inflight p)) o (handleFileUpload files p)
  = handleFileUpload_settled (uploadFiles_resume o)
      (set_inflight (inflight p) (handleFileUpload files p)).
Proof.
  intros S Hsid. unfold fetchSettles.
  assert (Hq : inflight (handleFileUpload files p)
               = inflight p ++ [PendingUpload files 0])
    by (rewrite (handleFileUpload_sent sid S Hsid); reflexivity).
  destruct (delete_last _ (inflight p) (PendingUpload files 0)) as [Hl Hd].
  rewrite Hq, Hl, Hd. reflexivity.
Qed.

End UploadAttempt.

Lemma uploadTimeout_effect (welcome : option jsstring) (q : Page) :
  uploadScreenActive (elements (uploadTimeout welcome q)) = false /\
  chatScreenActive (elements (uploadTimeout welcome q)) = true /\
  chatMessages (elements (uploadTimeout welcome q))
  = chatMessages (elements q)
      ++ [Message bot (js_or welcome welcome_fallback) []] /\
  toasts (elements (uploadTimeout welcome q)) = toasts (elements q) /\
  requests (uploadTimeout welcome q) = requests q.
Proof. repeat split. Qed.

(** C5: for every successful upload response the workflow raises the
    success notification, and the timeout it sets, once fired, makes the
    chat screen the active one and appends exactly one bot message: its text
    is the backend's welcome message, or the fixed fallback when the
    response has none (an empty one counts as none).  The busy flag is clear
    as soon as the response has been handled. *)
Theorem upload_success_welcome (p : Page) (files : list File) (sid : jsstring)
    (data : JsonBody) :
  isProcessing (state p) = false ->
  Forall file_ok files ->
  sessionId (state p) = Some sid -> sid <> [] ->
  let started := handleFileUpload files p in
  let done := fetchSettles (length (inflight p)) (Response true (inr data))
                started in
  let shown := timeoutFires (length (timers p)) done in
  requests started = requests p ++ [ReqUpload sid files] /\
  requests shown = requests started /\
  toasts (elements done)
  = toasts (elements p)
      ++ [(js "Successfully processed " ++ decimal (N.of_nat (length files))
             ++ js " file(s)", success)] /\
  toasts (elements shown) = toasts (elements done) /\
  isProcessing (state done) = false /\
  chatMessages (elements done) = chatMessages (elements p) /\
  uploadScreenActive (elements shown) = false /\
  chatScreenActive (elements shown) = true /\
  (exists text : jsstring,
     chatMessages (elements shown)
     = chatMessages (elements p) ++ [Message bot text []] /\
     (forall w, welcome_message data = Some w -> w <> [] -> text = w) /\
     (welcome_message data = None \/ welcome_message data = Some [] ->
      text = js "I've finished processing your documents. What would you like to explore?")).
Proof.
  intros B V S Hsid. cbv zeta.
  rewrite (upload_settles p files B V sid _ S Hsid).
  change (uploadFiles_resume (Response true (inr data)))
    with (Returned (Some data)).
  pose proof (handleFileUpload_sent p files B V sid S Hsid) as Hsent.
  set (started := handleFileUpload files p) in *.
  assert (Hst : requests started = requests p ++ [ReqUpload sid files] /\
                timers started = timers p /\
                toasts (elements started) = toasts (elements p) /\
                chatMessages (elements started) = chatMessages (elements p) /\
                currentFiles (state started) = files)
    by (rewrite Hsent; repeat split).
  destruct Hst as (Sr & Stm & St & Sc & Sf).
  match goal with
  | |- context [handleFileUpload_settled ?r ?q] =>
      destruct (handleFileUpload_settled_effect r q)
        as (Ht & Hs & Hr & Hi & Hc & Hu & Hch & Htm);
      set (done := handleFileUpload_settled r q) in *
  end.
  page_simpl in Ht. page_simpl in Hs. page_simpl in Hr. page_simpl in Hc.
  page_simpl in Htm.
  change (Some data ≫= welcome_message) with (welcome_message data) in Htm.
  rewrite Stm in Htm. rewrite St, Sf in Ht. rewrite Sr in Hr. rewrite Sc in Hc.
  assert (Hfire : timeoutFires (length (timers p)) done
                  = uploadTimeout (welcome_message data)
                      (set_timers (timers p) done)).
  { unfold timeoutFires.
    destruct (delete_last _ (timers p) (welcome_message data)) as [Hl Hd].
    rewrite Htm, Hl, Hd. reflexivity. }
  rewrite Hfire.
  destruct (uploadTimeout_effect (welcome_message data)
              (set_timers (timers p) done)) as (Eu & Ec & Em & Et & Er).
  rewrite Eu, Ec, Em, Et, Er. page_simpl.
  rewrite Ht, Hs, Hr, Hc, Sr.
  repeat (split; [reflexivity | ]).
  exists (js_or (welcome_message data) welcome_fallback).
  split; [reflexivity | ]. split.
  - intros w -> Hw. destruct w; [now destruct Hw | reflexivity].
  - intros [-> | ->]; reflexivity.
Qed.

(** Which outcomes make [uploadFiles] throw, and with which message. *)
Lemma uploadFiles_thrown (o : FetchOutcome) (e : JsError) :
  uploadFiles_resume o = Thrown e ->
  (forall data, o <> Response true (inr data)) /\
  (forall m, o = NetworkError m -> err_message e = m) /\
  (forall body d,
     o = Response false (inr body) -> detail body = Some d -> d <> [] ->
     err_message e = d) /\
  (forall body,
     o = Response false (inr body) ->
     detail body = None \/ detail body = Some [] ->
     err_message e = js "Upload failed").
Proof.
  intros H. repeat split.
  - intros data ->. discriminate H.
  - intros m ->. simpl in H. now injection H as <-.
  - intros body d -> D Hd. simpl in H. rewrite D in H.
    injection H as <-. destruct d; [now destruct Hd | reflexivity].
  - intros body -> D. simpl in H. injection H as <-.
    destruct D as [-> | ->]; reflexivity.
Qed.

(** C6: for every failed upload attempt, transport or application, the
    workflow raises one error notification that carries the failure's
    message (the fixed text only when that message is empty); the upload
    view is back in its idle state: idle view shown, processing view hidden,
    the zone clickable again, the progress at 0; the screens are as they
    were, so the upload screen stays, and no timeout is set that would
    switch them; no request is issued again; the busy flag is clear. *)
Theorem upload_failure_reverts (q : Page) (i : nat) (files : list File)
    (progress : N) (o : FetchOutcome) (e : JsError) :
  inflight q !! i = Some (PendingUpload files progress) ->
  uploadFiles_resume o = Thrown e ->
  let failed := fetchSettles i o q in
  toasts (elements failed)
  = toasts (elements q)
      ++ [(js_or (Some (err_message e))
             (js "Failed to upload files. Please try again."), error)] /\
  (err_message e <> [] ->
   toasts (elements failed) = toasts (elements q) ++ [(err_message e, error)]) /\
  uploadIdleHidden (elements failed) = false /\
  uploadProcessingHidden (elements failed) = true /\
  uploadZoneInert (elements failed) = false /\
  progressPercent (elements failed) = 0 /\
  uploadScreenActive (elements failed) = uploadScreenActive (elements q) /\
  chatScreenActive (elements failed) = chatScreenActive (elements q) /\
  chatMessages (elements failed) = chatMessages (elements q) /\
  timers failed = timers q /\
  requests failed = requests q /\
  inflight failed = delete i (inflight q) /\
  isProcessing (state failed) = false.
Proof.
  intros L Hthrown. cbv zeta. unfold fetchSettles. rewrite L, Hthrown.
  unfold handleFileUpload_settled. page_simpl.
  split; [reflexivity | ].
  split; [ | repeat split].
  intros Hm. destruct (err_message e); [now destruct Hm | reflexivity].
Qed.

(** ** The session store *)

(** C7: [initializeSession] reads the identifier stored under the tab's
    [sessionStorage] key.  A stored identifier is installed and returned
    with no request.  With none stored, exactly one init request is issued;
    when it succeeds the identifier of the response is stored under the key,
    installed and returned, with no further request; when it does not, be it
    a network failure, a non-2xx status or an unreadable body, the function
    ends in failure: it reports it, returns [null], and leaves the storage
    and [state.sessionId] as they were. *)
Theorem session_get_or_create (p : Page) :
  (forall sid : jsstring,
     sessionStorage p !! js "smart_tutor_session_id" = Some sid -> sid <> [] ->
     initializeSession p = (set_sessionId (Some sid) p, Settled (Some sid)) /\
     requests (fst (initializeSession p)) = requests p) /\
  (sessionStorage p !! js "smart_tutor_session_id" = None
   \/ sessionStorage p !! js "smart_tutor_session_id" = Some [] ->
   snd (initializeSession p) = Awaiting /\
   requests (fst (initializeSession p)) = requests p ++ [ReqInit] /\
   sessionStorage (fst (initializeSession p)) = sessionStorage p) /\
  (forall (data : JsonBody) (sid : jsstring),
     session_id data = Some sid ->
     let created := initializeSession_resume (Response true (inr data)) p in
     snd created = Some sid /\
     sessionStorage (fst created) !! js "smart_tutor_session_id" = Some sid /\
     sessionStorage (fst created)
     = <[js "smart_tutor_session_id" := sid]> (sessionStorage p) /\
     sessionId (state (fst created)) = Some sid /\
     requests (fst created) = requests p) /\
  (forall o : FetchOutcome,
     init_failed o ->
     let failed := initializeSession_resume o p in
     snd failed = None /\
     sessionStorage (fst failed) = sessionStorage p /\
     sessionId (state (fst failed)) = sessionId (state p) /\
     requests (fst failed) = requests p /\
     toasts (elements (fst failed))
     = toasts (elements p) ++ [session_failed_toast]).
Proof.
  change (js "smart_tutor_session_id") with CONFIG.SESSION_STORAGE_KEY.
  split; [ | split; [ | split]].
  - intros sid L Hsid. unfold initializeSession. rewrite L.
    destruct sid; [now destruct Hsid | ]. split; reflexivity.
  - intros L. unfold initializeSession.
    assert (T : truthy (sessionStorage p !! CONFIG.SESSION_STORAGE_KEY) = false)
      by (destruct L as [L | L]; exact (f_equal truthy L)).
    rewrite T. repeat split.
  - intros data sid D. cbv zeta. unfold initializeSession_resume.
    rewrite D. page_simpl. cbn [fst snd to_stored].
    repeat split. apply lookup_insert_eq.
  - intros o F. cbv zeta. unfold initializeSession_resume.
    destruct o as [m | [ | ] [m | data]]; try (now destruct F);
      repeat split.
Qed.

(** * Further properties *)

(** ** Trimming *)

Lemma trimStart_suffix (s : jsstring) :
  exists pre, s = pre ++ trimStart s /\ Forall (fun c => isWhiteSpace c = true) pre.
Proof.
  induction s as [ | c s (pre & E & F)]; simpl.
  - exists []. split; [reflexivity | constructor].
  - destruct (isWhiteSpace c) eqn:W.
    + exists (c :: pre). split; [simpl; f_equal; exact E | now constructor].
    + exists []. split; [reflexivity | constructor].
Qed.

Lemma trimStart_head (s : jsstring) (c : N) :
  head (trimStart s) = Some c -> isWhiteSpace c = false.
Proof.
  induction s as [ | d s IH]; simpl; [discriminate | ].
  destruct (isWhiteSpace d) eqn:W; [exact IH | ].
  simpl. intros H. now injection H as <-.
Qed.

Lemma trimEnd_prefix (s : jsstring) :
  exists post, s = trimEnd s ++ post
               /\ Forall (fun c => isWhiteSpace c = true) post.
Proof.
  unfold trimEnd. destruct (trimStart_suffix (rev s)) as (pre & E & F).
  exists (rev pre). split.
  - rewrite <- rev_app_distr, <- E. now rewrite rev_involutive.
  - apply list.Forall_forall. intros c Hc.
    rewrite list.Forall_forall in F. apply F.
    apply list_elem_of_In. apply list_elem_of_In in Hc. now apply in_rev.
Qed.

Lemma last_rev_head (s : jsstring) : last (rev s) = head s.
Proof.
  destruct s as [ | c s]; [reflexivity | ]. simpl. apply last_snoc.
Qed.

Lemma trimEnd_last (s : jsstring) (c : N) :
  last (trimEnd s) = Some c -> isWhiteSpace c = false.
Proof.
  unfold trimEnd. rewrite last_rev_head. apply trimStart_head.
Qed.

Lemma length_trim (s : jsstring) : (length (trim s) <= length s)%nat.
Proof.
  unfold trim.
  destruct (trimStart_suffix s) as (pre & E & _).
  destruct (trimEnd_prefix (trimStart s)) as (post & E' & _).
  rewrite E at 2. rewrite E' at 2. rewrite !length_app. lia.
Qed.

(** The trimmed text is what is left of the text between a run of
    whitespace at its start and one at its end, and it neither begins nor
    ends with whitespace. *)
Lemma trim_spec (s : jsstring) :
  (exists pre post,
     s = pre ++ trim s ++ post /\
     Forall (fun c => isWhiteSpace c = true) pre /\
     Forall (fun c => isWhiteSpace c = true) post) /\
  (forall c, head (trim s) = Some c -> isWhiteSpace c = false) /\
  (forall c, last (trim s) = Some c -> isWhiteSpace c = false).
Proof.
  unfold trim.
  destruct (trimStart_suffix s) as (pre & E & F).
  destruct (trimEnd_prefix (trimStart s)) as (post & E' & F').
  split; [ | split].
  - exists pre, post. split; [ | split; assumption].
    rewrite <- E'. exact E.
  - intros c H. apply (trimStart_head s).
    rewrite E'. destruct (trimEnd (trimStart s)); [discriminate | exact H].
  - apply trimEnd_last.
Qed.

Lemma trim_query_ok (s : jsstring) :
  trim s <> [] -> N.of_nat (length (trim s)) <= 2000 -> query_ok (trim s).
Proof.
  intros Hne Hlen. destruct (trim_spec s) as (_ & Hh & Hl).
  split; [exact Hne | ]. split; [exact Hlen | ]. split; assumption.
Qed.

(** ** The ways a trigger can go *)

Lemma handleSendMessage_cases (p : Page) :
  ((trim (messageInput (elements p)) = [] \/ isProcessing (state p) = true) /\
   handleSendMessage p = p)
  \/
  (isProcessing (state p) = false /\
   2000 < N.of_nat (length (trim (messageInput (elements p)))) /\
   handleSendMessage p
   = showToast (js "Message exceeds 2000 characters") warning p)
  \/
  (isProcessing (state p) = false /\
   trim (messageInput (elements p)) <> [] /\
   N.of_nat (length (trim (messageInput (elements p)))) <= 2000 /\
   ((truthy (sessionId (state p)) = false /\
     handleSendMessage p
     = handleSendMessage_settled (Returned None)
         (showToast (js "No active session. Please refresh the page.") error
            (composed (trim (messageInput (elements p))) p)))
    \/
    (exists sid,
       sessionId (state p) = Some sid /\ sid <> [] /\
       well_formed (trim (messageInput (elements p))) = false /\
       handleSendMessage p
       = handleSendMessage_settled (Thrown uri_error)
           (composed (trim (messageInput (elements p))) p))
    \/
    (exists sid,
       sessionId (state p) = Some sid /\ sid <> [] /\
       well_formed (trim (messageInput (elements p))) = true /\
       handleSendMessage p
       = suspend (PendingChat (trim (messageInput (elements p))))
           (fetch (ReqChat sid (trim (messageInput (elements p))))
              (composed (trim (messageInput (elements p))) p))))).
Proof.
  destruct (isProcessing (state p)) eqn:B.
  { left. split; [now right | ].
    unfold handleSendMessage. rewrite B. now rewrite orb_true_r. }
  destruct (trim (messageInput (elements p))) as [ | c m] eqn:T.
  { left. split; [now left | ].
    unfold handleSendMessage. now rewrite T. }
  destruct (N.ltb_spec 2000 (N.of_nat (length (c :: m)))) as [Hlt | Hle].
  { right. left. split; [reflexivity | ]. split; [exact Hlt | ].
    unfold handleSendMessage. rewrite T, B.
    assert (Hb : (CONFIG.MAX_MESSAGE_LENGTH <? N.of_nat (length (c :: m)))
                 = true) by (apply N.ltb_lt; exact Hlt).
    rewrite Hb. cbn [truthy negb orb]. cbv iota.
    now rewrite decimal_MAX_MESSAGE_LENGTH. }
  right. right. split; [reflexivity | ]. split; [discriminate | ].
  split; [exact Hle | ].
  assert (Hne : trim (messageInput (elements p)) <> [])
    by (rewrite T; discriminate).
  assert (Hle' : N.of_nat (length (trim (messageInput (elements p)))) <= 2000)
    by (rewrite T; exact Hle).
  rewrite <- T.
  destruct (sessionId (state p)) as [[ | d sid] | ] eqn:S.
  - left. split; [reflexivity | ].
    apply (handleSendMessage_no_session p B Hne Hle'). now rewrite S.
  - right.
    destruct (well_formed (trim (messageInput (elements p)))) eqn:W;
      [right | left]; exists (d :: sid); split; try reflexivity;
      (split; [discriminate | ]); (split; [reflexivity | ]).
    + apply (handleSendMessage_sent p B Hne Hle' (d :: sid) W S). discriminate.
    + apply (handleSendMessage_not_encoded p B Hne Hle' (d :: sid) W S).
      discriminate.
  - left. split; [reflexivity | ].
    apply (handleSendMessage_no_session p B Hne Hle'). now rewrite S.
Qed.

Lemma accepted_send_clears_input (p : Page) :
  isProcessing (state p) = false ->
  trim (messageInput (elements p)) <> [] ->
  N.of_nat (length (trim (messageInput (elements p)))) <= 2000 ->
  messageInput (elements (handleSendMessage p)) = [].
Proof.
  intros B Hne Hle.
  destruct (handleSendMessage_cases p)
    as [[[H | H] _]
       | [(_ & Hlt & _)
         | (_ & _ & _ & [[S ->] | [(sid & S & Hsid & W & ->)
                                  | (sid & S & Hsid & W & ->)]])]];
    try congruence; try lia; reflexivity.
Qed.

Lemma handleFileUpload_no_session (p : Page) (files : list File) :
  isProcessing (state p) = false ->
  Forall file_ok files ->
  truthy (sessionId (state p)) = false ->
  handleFileUpload files p
  = handleFileUpload_settled (Returned None)
      (showToast (js "No active session. Please refresh the page.") error
         (uploading files p)).
Proof.
  intros B V S. rewrite (handleFileUpload_passes p files B V).
  unfold uploadFiles.
  change (sessionId (state (uploading files p))) with (sessionId (state p)).
  destruct (sessionId (state p)) as [[ | c r] | ];
    [reflexivity | discriminate | reflexivity].
Qed.

Lemma handleFileUpload_cases (p : Page) (files : list File) :
  (isProcessing (state p) = true /\ handleFileUpload files p = p)
  \/
  (isProcessing (state p) = false /\ validateFiles files <> [] /\
   handleFileUpload files p
   = set_toasts (toasts (elements p)
                   ++ map (fun e => (e, error)) (validateFiles files)) p)
  \/
  (isProcessing (state p) = false /\ Forall file_ok files /\
   ((truthy (sessionId (state p)) = false /\
     handleFileUpload files p
     = handleFileUpload_settled (Returned None)
         (showToast (js "No active session. Please refresh the page.") error
            (uploading files p)))
    \/
    (exists sid,
       sessionId (state p) = Some sid /\ sid <> [] /\
       handleFileUpload files p
       = suspend (PendingUpload files 0)
           (fetch (ReqUpload sid files) (uploading files p))))).
Proof.
  destruct (isProcessing (state p)) eqn:B.
  { left. split; [reflexivity | ]. unfold handleFileUpload. now rewrite B. }
  destruct (validateFiles files) as [ | e es] eqn:V.
  - right. right. split; [reflexivity | ].
    apply validateFiles_nil in V. split; [exact V | ].
    destruct (sessionId (state p)) as [[ | d sid] | ] eqn:S.
    + left. split; [reflexivity | ].
      apply (handleFileUpload_no_session p files B V). now rewrite S.
    + right. exists (d :: sid). split; [reflexivity | ].
      split; [discriminate | ].
      apply (handleFileUpload_sent p files B V (d :: sid) S). discriminate.
    + left. split; [reflexivity | ].
      apply (handleFileUpload_no_session p files B V). now rewrite S.
  - right. left. split; [reflexivity | ]. split; [discriminate | ].
    rewrite <- V. rewrite (handleFileUpload_rejected files p);
      [now rewrite B | rewrite V; discriminate].
Qed.

(** ** The session and the requests *)

Lemma cnt_lookup (f : Pending -> bool) (l : list Pending) (i : nat) (k : Pending) :
  l !! i = Some k -> f k = true -> (1 <= cnt f l)%nat.
Proof.
  intros L F. rewrite (cnt_delete f l i k L), F. lia.
Qed.

Lemma settled_storage (q : Page) :
  (forall r, sessionStorage (handleSendMessage_settled r q) = sessionStorage q) /\
  (forall r, sessionStorage (handleFileUpload_settled r q) = sessionStorage q).
Proof.
  split; intros r.
  - unfold handleSendMessage_settled.
    destruct r as [[data | ] | e];
      [destruct (answer data) as [[ | c t] | ] | | ]; reflexivity.
  - unfold handleFileUpload_settled. destruct r; reflexivity.
Qed.

(** A page that differs from one with the invariant in nothing the
    invariant reads, but for init requests that are no longer outstanding. *)
Lemma SessionInv_frame (p q : Page) :
  sessionId (state q) = sessionId (state p) ->
  sessionStorage q = sessionStorage p ->
  requests q = requests p ->
  (cnt is_init (inflight q) <= cnt is_init (inflight p))%nat ->
  SessionInv p -> SessionInv q.
Proof.
  intros Es Est Er Ec (Ha & Hb & Hc & Hd & He).
  unfold SessionInv. rewrite Es, Est, Er.
  split; [exact Ha | ]. split; [exact Hb | ]. split; [lia | ].
  split; [ | exact He].
  intros H1. apply Hd. lia.
Qed.

(** A page that has issued one more request, for the installed session. *)
Lemma SessionInv_request (p q : Page) (r : Request) (sid : jsstring) :
  sessionId (state q) = sessionId (state p) ->
  sessionStorage q = sessionStorage p ->
  requests q = requests p ++ [r] ->
  cnt is_init (inflight q) = cnt is_init (inflight p) ->
  sessionId (state p) = Some sid ->
  is_ReqInit r = false ->
  request_ok (sessionStorage p) r ->
  SessionInv p -> SessionInv q.
Proof.
  intros Es Est Er Ec S Hr Hok (Ha & Hb & Hc & Hd & (rest & He & Hf)).
  unfold SessionInv. rewrite Es, Est, Er, Ec.
  split; [exact Ha | ].
  split; [apply Forall_app; split; [exact Hb | now constructor] | ].
  split; [exact Hc | ]. split.
  - intros H1. destruct (Hd H1) as [Hn _]. congruence.
  - exists (rest ++ [r]). split.
    + destruct He as [-> | ->]; [now left | now right].
    + apply Forall_app. split; [exact Hf | now constructor].
Qed.

Lemma initializeApp_fresh_SessionInv (storage : gmap jsstring jsstring) :
  SessionInv (initializeApp (fresh_page storage)).
Proof.
  unfold initializeApp, initializeSession.
  change (sessionStorage (fresh_page storage)) with storage.
  destruct (storage !! CONFIG.SESSION_STORAGE_KEY) as [[ | c s] | ] eqn:L;
    cbn [truthy].
  - repeat split; try (intros; discriminate); try (simpl; lia).
    + repeat constructor.
    + exists []. split; [now right | constructor].
  - unfold initializeApp_settled. cbn [truthy].
    repeat split; try (intros; discriminate); try (simpl; lia).
    + intros s' H. simpl in H. injection H as <-. exact L.
    + constructor.
    + exists []. split; [now left | constructor].
  - repeat split; try (intros; discriminate); try (simpl; lia).
    + repeat constructor.
    + exists []. split; [now right | constructor].
Qed.

Lemma handleSendMessage_SessionInv (p : Page) :
  SessionInv p -> SessionInv (handleSendMessage p).
Proof.
  intros HI.
  destruct (handleSendMessage_cases p)
    as [[_ ->]
       | [(_ & _ & ->)
         | (B & Hne & Hle & [[S ->] | [(sid & S & Hsid & W & ->)
                                      | (sid & S & Hsid & W & ->)]])]].
  - exact HI.
  - now apply (SessionInv_frame p).
  - destruct (handleSendMessage_settled_effect (Returned None)
                (showToast (js "No active session. Please refresh the page.")
                   error (composed (trim (messageInput (elements p))) p)))
      as (_ & _ & Hr & Hi & Hs & _).
    apply (SessionInv_frame p); try assumption.
    + now rewrite Hs.
    + now rewrite (proj1 (settled_storage _)).
    + now rewrite Hi.
  - destruct (handleSendMessage_settled_effect (Thrown uri_error)
                (composed (trim (messageInput (elements p))) p))
      as (_ & _ & Hr & Hi & Hs & _).
    apply (SessionInv_frame p); try assumption.
    + now rewrite Hs.
    + now rewrite (proj1 (settled_storage _)).
    + now rewrite Hi.
  - apply (SessionInv_request p _
             (ReqChat sid (trim (messageInput (elements p)))) sid);
      try reflexivity; try assumption.
    + simpl. rewrite cnt_app. simpl. lia.
    + destruct HI as (Ha & _). split; [now apply Ha | ].
      split; [exact Hsid | now apply trim_query_ok].
Qed.

Lemma handleFileUpload_SessionInv (p : Page) (files : list File) :
  files <> [] -> SessionInv p -> SessionInv (handleFileUpload files p).
Proof.
  intros Hf HI.
  destruct (handleFileUpload_cases p files)
    as [[_ ->] | [(_ & _ & ->) | (B & V & [[S ->] | (sid & S & Hsid & ->)])]].
  - exact HI.
  - now apply (SessionInv_frame p).
  - destruct (handleFileUpload_settled_effect (Returned None)
                (showToast (js "No active session. Please refresh the page.")
                   error (uploading files p)))
      as (_ & Hs & Hr & Hi & _).
    apply (SessionInv_frame p); try assumption.
    + now rewrite Hs.
    + now rewrite (proj2 (settled_storage _)).
    + now rewrite Hi.
  - apply (SessionInv_request p _ (ReqUpload sid files) sid);
      try reflexivity; try assumption.
    + simpl. rewrite cnt_app. simpl. lia.
    + destruct HI as (Ha & _). split; [now apply Ha | ].
      split; [exact Hsid | ]. split; assumption.
Qed.

Lemma fetchSettles_SessionInv (i : nat) (o : FetchOutcome) (p : Page) :
  SessionInv p -> SessionInv (fetchSettles i o p).
Proof.
  intros HI. unfold fetchSettles.
  destruct (inflight p !! i) as [k | ] eqn:L; [ | exact HI].
  pose proof (cnt_delete is_init _ _ _ L) as D.
  destruct k as [ | files progress | message]; simpl in D.
  - destruct HI as (Ha & Hb & Hc & Hd & He).
    assert (H1 : cnt is_init (inflight p) = 1%nat) by lia.
    destruct (Hd H1) as [Hn Hr].
    assert (H0 : cnt is_init (delete i (inflight p)) = 0%nat) by lia.
    unfold initializeSession_resume, initializeApp_settled.
    assert (Hfail : forall t,
      SessionInv (showToast (js "Failed to initialize. Please refresh the page.") t
         (showToast (js "Failed to connect to server. Please check if the backend is running.")
            error (set_inflight (delete i (inflight p)) p)))).
    { intros t. apply (SessionInv_frame p); try reflexivity.
      - simpl. lia.
      - repeat split; assumption. }
    destruct o as [m | [ | ] [m | data]]; cbn [truthy]; try apply Hfail.
    unfold SessionInv.
    destruct (truthy (session_id data)); page_simpl; rewrite Hr, H0.
    all: split; [intros s ->; apply lookup_insert_eq | ].
    all: split; [repeat constructor | ].
    all: split; [lia | ].
    all: split; [intros; discriminate | ].
    all: exists []; split; [now right | constructor].
  - destruct (handleFileUpload_settled_effect (uploadFiles_resume o)
                (set_inflight (delete i (inflight p)) p))
      as (_ & Hs & Hr & Hi & _).
    apply (SessionInv_frame p); try assumption.
    + now rewrite Hs.
    + now rewrite (proj2 (settled_storage _)).
    + rewrite Hi. simpl. lia.
  - destruct (handleSendMessage_settled_effect (sendChatMessage_resume o)
                (set_inflight (delete i (inflight p)) p))
      as (_ & _ & Hr & Hi & Hs & _).
    apply (SessionInv_frame p); try assumption.
    + now rewrite Hs.
    + now rewrite (proj1 (settled_storage _)).
    + rewrite Hi. simpl. lia.
Qed.

Lemma step_SessionInv (p : Page) (ev : Event) :
  SessionInv p -> SessionInv (step p ev).
Proof.
  intros HI. destruct ev as [files | files | | value | c | c | i o | i d | i];
    simpl.
  - destruct files; [exact HI | ]. now apply handleFileUpload_SessionInv.
  - destruct files; [exact HI | ]. simpl.
    destruct (negb _); [now apply handleFileUpload_SessionInv | exact HI].
  - now apply handleSendMessage_SessionInv.
  - now apply (SessionInv_frame p).
  - destruct c; [ | exact HI]. now apply (SessionInv_frame p).
  - destruct c; [apply initializeApp_fresh_SessionInv | exact HI].
  - now apply fetchSettles_SessionInv.
  - unfold intervalTick.
    destruct (inflight p !! i) as [[ | files progress | message] | ] eqn:L;
      try exact HI.
    apply (SessionInv_frame p); try reflexivity; [ | exact HI].
    simpl. erewrite cnt_insert; [reflexivity | exact L | reflexivity].
  - unfold timeoutFires. destruct (timers p !! i); [ | exact HI].
    now apply (SessionInv_frame p).
Qed.

Lemma run_SessionInv (storage : gmap jsstring jsstring) (evs : list Event) :
  SessionInv (run storage evs).
Proof.
  unfold run. generalize (initializeApp_fresh_SessionInv storage).
  generalize (initializeApp (fresh_page storage)).
  induction evs as [ | ev evs IH]; intros p HI; simpl; [exact HI | ].
  apply IH. now apply step_SessionInv.
Qed.

(** ** The controls *)

Lemma cnt_zero_lookup (f : Pending -> bool) (l : list Pending) (i : nat)
    (k : Pending) :
  cnt f l = 0%nat -> l !! i = Some k -> f k = false.
Proof.
  intros C L. destruct (f k) eqn:F; [ | reflexivity].
  pose proof (cnt_lookup f l i k L F). lia.
Qed.

Lemma lookup_delete_inv (l : list Pending) (i j : nat) (k : Pending) :
  delete i l !! j = Some k -> exists j', l !! j' = Some k.
Proof.
  revert i j. induction l as [ | x l IH]; intros [ | i] [ | j] H;
    simpl in *; try discriminate.
  - exists 1%nat. exact H.
  - exists (S (S j)). exact H.
  - exists 0%nat. exact H.
  - destruct (IH i j H) as [j' Hj]. exists (S j'). exact Hj.
Qed.

Lemma ControlsInv_frame (p q : Page) :
  sendBtnDisabled (elements q) = sendBtnDisabled (elements p) ->
  inflight q = inflight p ->
  currentFiles (state q) = currentFiles (state p) ->
  uploadIdleHidden (elements q) = uploadIdleHidden (elements p) ->
  uploadProcessingHidden (elements q) = uploadProcessingHidden (elements p) ->
  uploadZoneInert (elements q) = uploadZoneInert (elements p) ->
  ControlsInv p -> ControlsInv q.
Proof.
  intros E1 E2 E3 E4 E5 E6 [H1 H2]. unfold ControlsInv.
  rewrite E1, E2, E3, E4, E5, E6. split; assumption.
Qed.

(** With no processing request outstanding the invariant only asks for an
    enabled send button. *)
Lemma ControlsInv_idle (q : Page) :
  cnt is_processing (inflight q) = 0%nat ->
  sendBtnDisabled (elements q) = false ->
  ControlsInv q.
Proof.
  intros C E. split.
  - rewrite E. pose proof (cnt_chat_le (inflight q)) as Hle.
    destruct (cnt is_chat (inflight q)); [reflexivity | lia].
  - intros i files progress L.
    now pose proof (cnt_zero_lookup is_processing _ _ _ C L).
Qed.

Lemma idle_controls (p : Page) :
  Inv p -> ControlsInv p -> isProcessing (state p) = false ->
  cnt is_processing (inflight p) = 0%nat /\
  cnt is_chat (inflight p) = 0%nat /\
  sendBtnDisabled (elements p) = false.
Proof.
  intros HI [Hs _] B. pose proof (proj1 HI B) as Hc.
  pose proof (cnt_chat_le (inflight p)) as Hle.
  assert (H0 : cnt is_chat (inflight p) = 0%nat) by lia.
  split; [exact Hc | ]. split; [exact H0 | ]. now rewrite Hs, H0.
Qed.

Lemma handleFileUpload_ControlsInv (p : Page) (files : list File) :
  Inv p -> ControlsInv p -> ControlsInv (handleFileUpload files p).
Proof.
  intros HI HC.
  destruct (handleFileUpload_cases p files)
    as [[_ ->] | [(B & _ & ->) | (B & V & [[S ->] | (sid & S & Hsid & ->)])]].
  - exact HC.
  - now apply (ControlsInv_frame p).
  - destruct (idle_controls p HI HC B) as (Hc & _ & Hb).
    apply ControlsInv_idle; [exact Hc | exact Hb].
  - destruct (idle_controls p HI HC B) as (Hc & Hch & Hb).
    split.
    + page_simpl. unfold uploading. page_simpl.
      rewrite cnt_app, Hch, Hb. reflexivity.
    + intros i files' progress L. cbn [inflight suspend set_inflight] in L.
      change (inflight (fetch (ReqUpload sid files) (uploading files p)))
        with (inflight p) in L.
      apply lookup_app_Some in L as [L | [_ L]].
      * now pose proof (cnt_zero_lookup is_processing _ _ _ Hc L).
      * destruct (i - length (inflight p))%nat; [ | discriminate].
        simpl in L. injection L as <- _. repeat split.
Qed.

Lemma handleSendMessage_ControlsInv (p : Page) :
  Inv p -> ControlsInv p -> ControlsInv (handleSendMessage p).
Proof.
  intros HI HC.
  destruct (handleSendMessage_cases p)
    as [[_ ->]
       | [(B & _ & ->)
         | (B & Hne & Hle & [[S ->] | [(sid & S & Hsid & W & ->)
                                      | (sid & S & Hsid & W & ->)]])]].
  - exact HC.
  - now apply (ControlsInv_frame p).
  - destruct (idle_controls p HI HC B) as (Hc & _ & _).
    match goal with
    | |- ControlsInv (handleSendMessage_settled ?r ?q) =>
        destruct (handleSendMessage_settled_effect r q)
          as (_ & _ & _ & Hi & _ & Hb)
    end.
    apply ControlsInv_idle; [now rewrite Hi | exact Hb].
  - destruct (idle_controls p HI HC B) as (Hc & _ & _).
    match goal with
    | |- ControlsInv (handleSendMessage_settled ?r ?q) =>
        destruct (handleSendMessage_settled_effect r q)
          as (_ & _ & _ & Hi & _ & Hb)
    end.
    apply ControlsInv_idle; [now rewrite Hi | exact Hb].
  - destruct (idle_controls p HI HC B) as (Hc & Hch & Hb).
    split.
    + unfold composed. page_simpl. rewrite cnt_app, Hch. reflexivity.
    + intros i files' progress L. cbn [inflight suspend set_inflight] in L.
      change (inflight (fetch ?r (composed ?m p))) with (inflight p) in L.
      apply lookup_app_Some in L as [L | [_ L]].
      * now pose proof (cnt_zero_lookup is_processing _ _ _ Hc L).
      * destruct (i - length (inflight p))%nat; discriminate.
Qed.

Lemma fetchSettles_ControlsInv (i : nat) (o : FetchOutcome) (p : Page) :
  Inv p -> ControlsInv p -> ControlsInv (fetchSettles i o p).
Proof.
  intros HI HC. unfold fetchSettles.
  destruct (inflight p !! i) as [k | ] eqn:L; [ | exact HC].
  pose proof (cnt_delete is_processing _ _ _ L) as Dp.
  pose proof (cnt_delete is_chat _ _ _ L) as Dc.
  assert (Hbusy : is_processing k = true ->
                  cnt is_processing (delete i (inflight p)) = 0%nat).
  { intros K. rewrite K in Dp.
    destruct (isProcessing (state p)) eqn:B.
    - pose proof (proj2 HI B). lia.
    - pose proof (proj1 HI B). lia. }
  destruct k as [ | files progress | message]; simpl in Dp, Dc.
  - assert (HC' : ControlsInv (set_inflight (delete i (inflight p)) p)).
    { destruct HC as [H1 H2]. split.
      - page_simpl. rewrite <- Dc. exact H1.
      - intros j files progress Lj. page_simpl in Lj.
        destruct (lookup_delete_inv _ _ _ _ Lj) as [j' Lj'].
        exact (H2 j' files progress Lj'). }
    revert HC'. generalize (set_inflight (delete i (inflight p)) p).
    intros q HC'.
    unfold initializeSession_resume, initializeApp_settled.
    destruct o as [m | [ | ] [m | data]];
      repeat match goal with
             | |- context [truthy ?x] => destruct (truthy x)
             end; apply (ControlsInv_frame q); try reflexivity; exact HC'.
  - specialize (Hbusy eq_refl).
    destruct (handleFileUpload_settled_effect (uploadFiles_resume o)
                (set_inflight (delete i (inflight p)) p))
      as (_ & _ & _ & Hi & _).
    apply ControlsInv_idle; [now rewrite Hi | ].
    pose proof (cnt_chat_le (delete i (inflight p))) as Hle.
    destruct HC as [H1 _].
    unfold handleFileUpload_settled.
    destruct (uploadFiles_resume o); page_simpl; rewrite H1, Dc;
      destruct (cnt is_chat (delete i (inflight p))); try reflexivity; lia.
  - specialize (Hbusy eq_refl).
    destruct (handleSendMessage_settled_effect (sendChatMessage_resume o)
                (set_inflight (delete i (inflight p)) p))
      as (_ & _ & _ & Hi & _ & Hb).
    apply ControlsInv_idle; [now rewrite Hi | exact Hb].
Qed.

Lemma initializeApp_fresh_ControlsInv (storage : gmap jsstring jsstring) :
  ControlsInv (initializeApp (fresh_page storage)).
Proof.
  unfold initializeApp, initializeSession.
  change (sessionStorage (fresh_page storage)) with storage.
  destruct (truthy (storage !! CONFIG.SESSION_STORAGE_KEY)).
  - unfold initializeApp_settled.
    destruct (truthy _); apply ControlsInv_idle; reflexivity.
  - apply ControlsInv_idle; reflexivity.
Qed.

Lemma step_ControlsInv (p : Page) (ev : Event) :
  Inv p -> ControlsInv p -> ControlsInv (step p ev).
Proof.
  intros HI HC.
  destruct ev as [files | files | | value | c | c | i o | i d | i]; simpl.
  - destruct (0 <? length files)%nat;
      [now apply handleFileUpload_ControlsInv | exact HC].
  - destruct (_ && _); [now apply handleFileUpload_ControlsInv | exact HC].
  - now apply handleSendMessage_ControlsInv.
  - now apply (ControlsInv_frame p).
  - destruct c; [ | exact HC]. now apply (ControlsInv_frame p).
  - destruct c; [apply initializeApp_fresh_ControlsInv | exact HC].
  - now apply fetchSettles_ControlsInv.
  - unfold intervalTick.
    destruct (inflight p !! i) as [[ | files progress | message] | ] eqn:L;
      try exact HC.
    destruct HC as [H1 H2]. split.
    + page_simpl. erewrite cnt_insert; [exact H1 | exact L | reflexivity].
    + intros j files' progress' Lj. page_simpl in Lj. page_simpl.
      destruct (decide (i = j)) as [<- | Hij].
      * rewrite list_lookup_insert_eq in Lj
          by (now apply lookup_lt_Some in L).
        injection Lj as <- _. exact (H2 i files progress L).
      * rewrite list_lookup_insert_ne in Lj by exact Hij.
        exact (H2 j files' progress' Lj).
  - unfold timeoutFires. destruct (timers p !! i); [ | exact HC].
    now apply (ControlsInv_frame p).
Qed.

Lemma run_invariants (storage : gmap jsstring jsstring) (evs : list Event) :
  Inv (run storage evs) /\ ControlsInv (run storage evs).
Proof.
  unfold run.
  generalize (conj (initializeApp_fresh_Inv storage)
                (initializeApp_fresh_ControlsInv storage)).
  generalize (initializeApp (fresh_page storage)).
  induction evs as [ | ev evs IH]; intros p [HI HC]; simpl; [now split | ].
  apply IH. split; [now apply step_Inv | now apply step_ControlsInv].
Qed.

(** ** The chat workflow, further *)


(** X2: the chat workflow never shows why a request failed.  Whatever made
    [sendChatMessage] throw, be it no response, the backend's [detail] or an
    unreadable body, the page after the failure is the same. *)
Theorem chat_failure_detail_never_shown (q : Page) (i : nat) (m : jsstring)
    (o1 o2 : FetchOutcome) (e1 e2 : JsError) :
  inflight q !! i = Some (PendingChat m) ->
  sendChatMessage_resume o1 = Thrown e1 ->
  sendChatMessage_resume o2 = Thrown e2 ->
  fetchSettles i o1 q = fetchSettles i o2 q.
Proof.
  intros L H1 H2. unfold fetchSettles. rewrite L, H1, H2. reflexivity.
Qed.

(** X3: a send that is not accepted keeps what the user typed.  An input
    that is empty after trimming, or any input while an operation is in
    flight, leaves the page exactly as it was; an over-long input with
    nothing in flight adds the warning notification and nothing else; an
    accepted message empties the input. *)
Theorem rejected_send_keeps_input (p : Page) :
  (trim (messageInput (elements p)) = [] \/ isProcessing (state p) = true ->
   handleSendMessage p = p) /\
  (isProcessing (state p) = false ->
   2000 < N.of_nat (length (trim (messageInput (elements p)))) ->
   handleSendMessage p
   = showToast (js "Message exceeds 2000 characters") warning p /\
   messageInput (elements (handleSendMessage p)) = messageInput (elements p)) /\
  (isProcessing (state p) = false ->
   trim (messageInput (elements p)) <> [] ->
   N.of_nat (length (trim (messageInput (elements p)))) <= 2000 ->
   messageInput (elements (handleSendMessage p)) = []).
Proof.
  destruct (handleSendMessage_cases p)
    as [[H E] | [(B & Hlt & E) | (B & Hne & Hle & H)]].
  - split; [intros _; exact E | ]. split.
    + intros B Hlt. destruct H as [H | H]; [ | congruence].
      rewrite H in Hlt. simpl in Hlt. lia.
    + intros B Hne. destruct H as [H | H]; congruence.
  - split; [intros [H | H]; [ | congruence] | ].
    { rewrite H in Hlt. simpl in Hlt. lia. }
    split; [intros _ _; rewrite E; split; reflexivity | ].
    intros _ _ Hle. lia.
  - split; [intros [H' | H']; congruence | ].
    split; [intros _ Hlt; lia | ].
    intros _ _ _.
    destruct H as [[S ->] | [(sid & S & Hsid & W & ->)
                            | (sid & S & Hsid & W & ->)]];
      reflexivity.
Qed.

(** ** The upload workflow, further *)

(** X4: what the error notification of a failed upload says.  With no
    response it is the network error's message; with a response that is not
    [ok] it is the body's [detail], or "Upload failed" when the body has
    none; with a body that does not parse it is the parser's message, for
    an [ok] response as for one that is not; the fixed "Failed to upload
    files" text is only used for an error without a message. *)
Theorem upload_error_toast_text (q : Page) (i : nat) (files : list File)
    (progress : N) :
  inflight q !! i = Some (PendingUpload files progress) ->
  (forall m, m <> [] ->
     toasts (elements (fetchSettles i (NetworkError m) q))
     = toasts (elements q) ++ [(m, error)]) /\
  (forall body d, detail body = Some d -> d <> [] ->
     toasts (elements (fetchSettles i (Response false (inr body)) q))
     = toasts (elements q) ++ [(d, error)]) /\
  (forall body, detail body = None \/ detail body = Some [] ->
     toasts (elements (fetchSettles i (Response false (inr body)) q))
     = toasts (elements q) ++ [(js "Upload failed", error)]) /\
  (forall ok m, m <> [] ->
     toasts (elements (fetchSettles i (Response ok (inl m)) q))
     = toasts (elements q) ++ [(m, error)]) /\
  (forall ok,
     toasts (elements (fetchSettles i (NetworkError []) q))
     = toasts (elements q)
         ++ [(js "Failed to upload files. Please try again.", error)] /\
     toasts (elements (fetchSettles i (Response ok (inl [])) q))
     = toasts (elements q)
         ++ [(js "Failed to upload files. Please try again.", error)]).
Proof.
  intros L. unfold fetchSettles. rewrite L.
  split; [ | split; [ | split; [ | split]]].
  - intros [ | c m] Hm; [now destruct Hm | reflexivity].
  - intros body [ | c d] D Hd; [now destruct Hd | ].
    unfold uploadFiles_resume. rewrite D. reflexivity.
  - intros body D. unfold uploadFiles_resume.
    assert (E : js_or (detail body) (js "Upload failed") = js "Upload failed")
      by (destruct D as [D | D]; exact (f_equal (fun x => js_or x _) D)).
    rewrite E. reflexivity.
  - intros [ | ] [ | c m] Hm; try (now destruct Hm); reflexivity.
  - intros [ | ]; split; reflexivity.
Qed.

(** X5: an upload of valid files on a page without a session issues no
    request, yet runs the success path: after the "No active session" error
    notification it raises the success notification, shows the progress at
    100, clears the busy flag and sets the timeout, which switches to the
    chat screen and appends the fallback welcome message. *)
Theorem upload_without_session (p : Page) (files : list File) :
  isProcessing (state p) = false ->
  Forall file_ok files ->
  truthy (sessionId (state p)) = false ->
  let finished := handleFileUpload files p in
  let shown := timeoutFires (length (timers p)) finished in
  requests finished = requests p /\
  inflight finished = inflight p /\
  toasts (elements finished)
  = toasts (elements p)
      ++ [(js "No active session. Please refresh the page.", error);
          (js "Successfully processed " ++ decimal (N.of_nat (length files))
             ++ js " file(s)", success)] /\
  progressPercent (elements finished) = 100 /\
  isProcessing (state finished) = false /\
  timers finished = timers p ++ [None] /\
  uploadScreenActive (elements shown) = false /\
  chatScreenActive (elements shown) = true /\
  chatMessages (elements shown)
  = chatMessages (elements p)
      ++ [Message bot
            (js "I've finished processing your documents. What would you like to explore?")
            []] /\
  requests shown = requests p.
Proof.
  intros B V S. cbv zeta.
  rewrite (handleFileUpload_no_session p files B V S).
  unfold handleFileUpload_settled, uploading. page_simpl.
  change (None ≫= welcome_message) with (@None jsstring).
  split; [reflexivity | ]. split; [reflexivity | ].
  split; [now rewrite <- app_assoc | ].
  split; [reflexivity | ]. split; [reflexivity | ]. split; [reflexivity | ].
  unfold timeoutFires. page_simpl.
  destruct (delete_last _ (timers p) (@None jsstring)) as [Hl Hd].
  rewrite Hl, Hd. repeat split.
Qed.

(** X6: dropping files on the upload zone and choosing the same files in
    the file dialog have the same effect on every page, the drop handler's
    own test of the busy flag changing nothing; and an empty selection does
    nothing at all. *)
Theorem drop_equals_change (p : Page) (files : list File) :
  step p (UploadZoneDrop files) = step p (FileInputChange files) /\
  step p (FileInputChange []) = p /\
  step p (UploadZoneDrop []) = p.
Proof.
  split; [ | split; reflexivity]. simpl.
  destruct (0 <? length files)%nat; [ | reflexivity]. simpl.
  destruct (isProcessing (state p)) eqn:B; [ | reflexivity].
  simpl. unfold handleFileUpload. now rewrite B.
Qed.

Lemma elem_of_concat_map (g : File -> list jsstring) (l : list File)
    (e : jsstring) :
  e ∈ concat (map g l) <-> exists f, f ∈ l /\ e ∈ g f.
Proof.
  induction l as [ | x l IH]; simpl.
  - split; [intros H; now apply elem_of_nil in H | ].
    intros (f & H & _). now apply elem_of_nil in H.
  - rewrite elem_of_app, IH. split.
    + intros [H | (f & Hf & He)].
      * exists x. split; [apply list_elem_of_here | exact H].
      * exists f. split; [now apply list_elem_of_further | exact He].
    + intros (f & Hf & He). apply elem_of_cons in Hf as [-> | Hf].
      * now left.
      * right. now exists f.
Qed.

(** X7: every message [validateFiles] returns begins with the name of a
    file of the batch that breaks a rule, every such file is named by a
    message, and validating two batches together gives the messages of the
    first followed by those of the second. *)
Theorem validation_messages_name_files (files1 files2 : list File) :
  (forall e, e ∈ validateFiles files1 ->
     exists f, f ∈ files1 /\ offending f = true /\ file_name f `prefix_of` e) /\
  (forall f, f ∈ files1 -> offending f = true ->
     exists e, e ∈ validateFiles files1 /\ file_name f `prefix_of` e) /\
  validateFiles (files1 ++ files2) = validateFiles files1 ++ validateFiles files2.
Proof.
  assert (Hone : forall f e, e ∈ file_errors f ->
                   offending f = true /\ file_name f `prefix_of` e).
  { intros f e. unfold file_errors, offending, non_pdf, oversized.
    destruct (bool_decide _); destruct (_ <? _); simpl; intros H.
    all: repeat match goal with
                | H : _ ∈ _ :: _ |- _ => apply elem_of_cons in H as [-> | H]
                | H : _ ∈ [] |- _ => now apply elem_of_nil in H
                end.
    all: split; [reflexivity | eexists; reflexivity]. }
  assert (Hsome : forall f, offending f = true ->
                    exists e, e ∈ file_errors f /\ file_name f `prefix_of` e).
  { intros f. unfold file_errors, offending, non_pdf, oversized.
    destruct (bool_decide _); destruct (_ <? _); simpl; intros H;
      try discriminate.
    all: eexists; split; [apply list_elem_of_here | eexists; reflexivity]. }
  rewrite !validateFiles_concat. split; [ | split].
  - intros e He. apply elem_of_concat_map in He as (f & Hf & He).
    exists f. split; [exact Hf | now apply (Hone f e)].
  - intros f Hf Hoff. destruct (Hsome f Hoff) as (e & He & Hp).
    exists e. split; [ | exact Hp].
    apply elem_of_concat_map. now exists f.
  - now rewrite map_app, concat_app.
Qed.

(** ** What holds in every page the script can reach *)

Lemma cnt_pos_Exists (f : Pending -> bool) (l : list Pending) :
  (0 < cnt f l)%nat <-> Exists (fun k => f k = true) l.
Proof.
  induction l as [ | k l IH]; simpl.
  - split; [lia | intros H; inversion H].
  - rewrite List.Exists_cons, <- IH. destruct (f k).
    + split; [auto | lia].
    + split; [intros H; right; lia | ].
      intros [H | H]; [discriminate | lia].
Qed.

(** X8: every chat request a page has issued carries a query that is not
    empty, is at most 2000 code units long and neither begins nor ends with
    whitespace, whatever the user typed and in whatever order the events
    came. *)
Theorem chat_requests_well_formed (storage : gmap jsstring jsstring)
    (evs : list Event) :
  Forall (fun r => match r with
                   | ReqChat _ q => query_ok q
                   | _ => True
                   end) (requests (run storage evs)).
Proof.
  destruct (run_SessionInv storage evs) as (_ & Hb & _).
  eapply list.Forall_impl; [exact Hb | ].
  intros [ | sid files | sid q]; simpl; tauto.
Qed.

(** X9: every upload request a page has issued carries at least one file,
    and only files of type [application/pdf] of at most 10 MiB. *)
Theorem upload_requests_well_formed (storage : gmap jsstring jsstring)
    (evs : list Event) :
  Forall (fun r => match r with
                   | ReqUpload _ files => files <> [] /\ Forall file_ok files
                   | _ => True
                   end) (requests (run storage evs)).
Proof.
  destruct (run_SessionInv storage evs) as (_ & Hb & _).
  eapply list.Forall_impl; [exact Hb | ].
  intros [ | sid files | sid q]; simpl; tauto.
Qed.

(** X10: the session a page works with is the one stored in its tab: the
    identifier in [state.sessionId] is the value under the storage key, and
    every upload and chat request issued carries that stored identifier,
    which is not empty. *)
Theorem requests_carry_stored_session (storage : gmap jsstring jsstring)
    (evs : list Event) :
  match sessionId (state (run storage evs)) with
  | Some s =>
      sessionStorage (run storage evs) !! CONFIG.SESSION_STORAGE_KEY = Some s
  | None => True
  end /\
  Forall (fun r => match r with
                   | ReqUpload sid _ | ReqChat sid _ =>
                       sessionStorage (run storage evs)
                         !! CONFIG.SESSION_STORAGE_KEY = Some sid
                       /\ sid <> []
                   | ReqInit => True
                   end) (requests (run storage evs)).
Proof.
  destruct (run_SessionInv storage evs) as (Ha & Hb & _). split.
  - destruct (sessionId (state (run storage evs))); [now apply Ha | exact I].
  - eapply list.Forall_impl; [exact Hb | ].
    intros [ | sid files | sid q]; simpl; tauto.
Qed.

(** X11: a page issues the init request at most once, and only as its very
    first request; as long as that request is outstanding no identifier is
    installed and nothing else has been requested. *)
Theorem init_request_at_most_once (storage : gmap jsstring jsstring)
    (evs : list Event) :
  (exists rest,
     (requests (run storage evs) = rest
      \/ requests (run storage evs) = ReqInit :: rest) /\
     Forall (fun r => is_ReqInit r = false) rest) /\
  (Exists (fun k => is_init k = true) (inflight (run storage evs)) ->
   sessionId (state (run storage evs)) = None /\
   requests (run storage evs) = [ReqInit]).
Proof.
  destruct (run_SessionInv storage evs) as (_ & _ & Hc & Hd & He).
  split; [exact He | ].
  intros Hex. apply cnt_pos_Exists in Hex. apply Hd. lia.
Qed.



(** X14: while an upload is outstanding, the busy flag is set, the upload
    zone shows its processing view and takes no pointer events, and
    [state.currentFiles] is the batch of that upload, so the number the
    success notification names is the number of files uploaded. *)
Theorem upload_view_while_uploading (storage : gmap jsstring jsstring)
    (evs : list Event) (i : nat) (files : list File) (progress : N) :
  inflight (run storage evs) !! i = Some (PendingUpload files progress) ->
  isProcessing (state (run storage evs)) = true /\
  currentFiles (state (run storage evs)) = files /\
  uploadIdleHidden (elements (run storage evs)) = true /\
  uploadProcessingHidden (elements (run storage evs)) = false /\
  uploadZoneInert (elements (run storage evs)) = true /\
  (forall data,
     toasts (elements (fetchSettles i (Response true (inr data))
                         (run storage evs)))
     = toasts (elements (run storage evs))
         ++ [(js "Successfully processed " ++ decimal (N.of_nat (length files))
                ++ js " file(s)", success)]).
Proof.
  intros L. destruct (run_invariants storage evs) as [[H0 _] [_ Hu]].
  destruct (Hu i files progress L) as (Hf & Hi & Hp & Hz).
  split.
  { destruct (isProcessing (state (run storage evs))) eqn:B; [reflexivity | ].
    pose proof (H0 eq_refl) as Hc.
    now pose proof (cnt_zero_lookup is_processing _ _ _ Hc L). }
  repeat (split; [assumption | ]).
  intros data. unfold fetchSettles. rewrite L.
  unfold handleFileUpload_settled. simpl uploadFiles_resume. cbv iota.
  page_simpl. now rewrite Hf.
Qed.

(** ** The transcript *)

Lemma messages_app (l1 l2 : list ChatEntry) :
  messages (l1 ++ l2) = messages l1 ++ messages l2.
Proof.
  induction l1 as [ | x l1 IH]; simpl; [reflexivity | ].
  destruct x; simpl; now rewrite IH.
Qed.

Lemma messages_remove (l : list ChatEntry) :
  map origin (messages (remove_first_indicator l)) = map origin (messages l).
Proof.
  induction l as [ | x l IH]; simpl; [reflexivity | ].
  destruct x; [ | | reflexivity];
    destruct (holds_indicator_id _); simpl; now rewrite ?IH.
Qed.

Lemma prefix_map_origin (l r : list ChatEntry) :
  map origin (messages l) `prefix_of` map origin (messages (l ++ r)).
Proof. rewrite messages_app, map_app. now eexists. Qed.

Lemma handleSendMessage_settled_messages (r : Result (option JsonBody)) (q : Page) :
  map origin (messages (chatMessages (elements q)))
  `prefix_of`
  map origin (messages (chatMessages (elements (handleSendMessage_settled r q)))).
Proof.
  destruct (handleSendMessage_settled_effect r q) as (-> & _).
  rewrite messages_app, map_app, messages_remove. now eexists.
Qed.

Lemma step_messages (p : Page) (ev : Event) :
  keeps_transcript ev = true ->
  map origin (messages (chatMessages (elements p)))
  `prefix_of` map origin (messages (chatMessages (elements (step p ev)))).
Proof.
  intros K.
  assert (Hup : forall files,
            map origin (messages (chatMessages (elements p)))
            `prefix_of`
            map origin (messages (chatMessages
                                    (elements (handleFileUpload files p))))).
  { intros files.
    destruct (handleFileUpload_cases p files)
      as [[_ ->] | [(_ & _ & ->) | (B & V & [[S ->] | (sid & S & Hsid & ->)])]];
      reflexivity. }
  assert (Hcomposed : forall m,
            map origin (messages (chatMessages (elements p)))
            `prefix_of`
            map origin (messages (chatMessages (elements (composed m p))))).
  { intros m. unfold composed. page_simpl. rewrite <- app_assoc.
    apply prefix_map_origin. }
  destruct ev as [files | files | | value | c | c | i o | i d | i]; simpl.
  - destruct (0 <? length files)%nat; [apply Hup | reflexivity].
  - destruct (_ && _); [apply Hup | reflexivity].
  - destruct (handleSendMessage_cases p)
      as [[_ ->]
         | [(_ & _ & ->)
           | (B & Hne & Hle & [[S ->] | [(sid & S & Hsid & W & ->)
                                        | (sid & S & Hsid & W & ->)]])]];
      try reflexivity.
    + etransitivity; [ | apply handleSendMessage_settled_messages].
      apply Hcomposed.
    + etransitivity; [ | apply handleSendMessage_settled_messages].
      apply Hcomposed.
    + apply Hcomposed.
  - reflexivity.
  - destruct c; [discriminate | reflexivity].
  - destruct c; [discriminate | reflexivity].
  - unfold fetchSettles.
    destruct (inflight p !! i) as [[ | files progress | message] | ];
      try reflexivity.
    + unfold initializeSession_resume, initializeApp_settled.
      destruct o as [m | [ | ] [m | data]];
        repeat match goal with
               | |- context [truthy ?x] => destruct (truthy x)
               end; reflexivity.
    + destruct (handleFileUpload_settled_effect (uploadFiles_resume o)
                  (set_inflight (delete i (inflight p)) p))
        as (_ & _ & _ & _ & -> & _).
      reflexivity.
    + apply (handleSendMessage_settled_messages _
               (set_inflight (delete i (inflight p)) p)).
  - unfold intervalTick.
    destruct (inflight p !! i) as [[ | files progress | message] | ];
      reflexivity.
  - unfold timeoutFires. destruct (timers p !! i); [ | reflexivity].
    destruct (uploadTimeout_effect o (set_timers (delete i (timers p)) p))
      as (_ & _ & -> & _).
    page_simpl. apply prefix_map_origin.
Qed.

(** X15: messages are never taken out of the transcript or reordered.  Over
    any sequence of events that holds neither a confirmed "clear chat" nor a
    confirmed "new session", the messages the transcript had are still
    there, in the same order and before the new ones, each as [addMessage]
    built it or with an element with the typing indicator's id taken out by
    [removeTypingIndicator]. *)
Theorem transcript_append_only (p : Page) (evs : list Event) :
  forallb keeps_transcript evs = true ->
  map origin (messages (chatMessages (elements p)))
  `prefix_of`
  map origin (messages (chatMessages (elements (foldl step p evs)))).
Proof.
  revert p. induction evs as [ | ev evs IH]; intros p H; simpl.
  - reflexivity.
  - simpl in H. apply andb_true_iff in H as [Hev Hevs].
    etransitivity; [apply (step_messages p ev Hev) | apply IH, Hevs].
Qed.


(** ** Starting over *)

(** X17: "new session", declined, does nothing.  Confirmed, it removes the
    stored identifier and nothing else from the tab's storage and starts the
    page afresh: no identifier installed, busy flag clear, whatever was
    outstanding or scheduled abandoned, and exactly one request issued, the
    init request, which is outstanding.  When that request succeeds, its
    identifier is the stored and installed one. *)
Theorem new_session_starts_over (p : Page) :
  startNewSession false p = p /\
  (let fresh := startNewSession true p in
   sessionStorage fresh = delete CONFIG.SESSION_STORAGE_KEY (sessionStorage p) /\
   sessionStorage fresh !! CONFIG.SESSION_STORAGE_KEY = None /\
   (forall key, key <> CONFIG.SESSION_STORAGE_KEY ->
                sessionStorage fresh !! key = sessionStorage p !! key) /\
   state fresh = mkAppState None false [] /\
   requests fresh = [ReqInit] /\
   inflight fresh = [PendingInit] /\
   timers fresh = [] /\
   (forall data sid,
      session_id data = Some sid -> sid <> [] ->
      let ready := fetchSettles 0 (Response true (inr data)) fresh in
      sessionId (state ready) = Some sid /\
      sessionStorage ready !! CONFIG.SESSION_STORAGE_KEY = Some sid /\
      inflight ready = [] /\
      toasts (elements ready) = [(js "Welcome to Smart Tutor AI!", success)])).
Proof.
  split; [reflexivity | ]. cbv zeta.
  unfold startNewSession, initializeApp, initializeSession.
  change (sessionStorage (fresh_page ?st)) with st.
  rewrite lookup_delete_eq. cbn [truthy].
  split; [reflexivity | ]. split; [apply lookup_delete_eq | ].
  split; [intros key Hk; now apply lookup_delete_ne | ].
  repeat (split; [reflexivity | ]).
  intros data sid D Hsid.
  unfold fetchSettles, initializeSession_resume, initializeApp_settled.
  cbn [inflight suspend set_inflight fetch set_requests fresh_page].
  cbn [lookup list_lookup app]. rewrite D.
  destruct sid as [ | c sid]; [now destruct Hsid | ].
  cbn [truthy]. page_simpl.
  split; [reflexivity | ]. split; [apply lookup_insert_eq | ].
  split; reflexivity.
Qed.

(** X18: how the initialization ends.  When the init request settles on a
    page without an identifier, either a non-empty identifier is installed
    and stored and the welcome notification is the one raised, or no
    identifier is installed and the last notification asks for a reload;
    a failed call (no response, a status that is not [ok], an unreadable
    body) raises the "Failed to connect" notification before it and stores
    nothing. *)
Theorem initialization_outcome (p : Page) (i : nat) (o : FetchOutcome) :
  inflight p !! i = Some PendingInit ->
  sessionId (state p) = None ->
  let q := fetchSettles i o p in
  ((exists sid,
      sid <> [] /\ sessionId (state q) = Some sid /\
      sessionStorage q !! CONFIG.SESSION_STORAGE_KEY = Some sid /\
      toasts (elements q)
      = toasts (elements p) ++ [(js "Welcome to Smart Tutor AI!", success)])
   \/
   (truthy (sessionId (state q)) = false /\
    last (toasts (elements q))
    = Some (js "Failed to initialize. Please refresh the page.", error))) /\
  (init_failed o ->
   sessionId (state q) = None /\
   sessionStorage q = sessionStorage p /\
   toasts (elements q)
   = toasts (elements p)
       ++ [session_failed_toast;
           (js "Failed to initialize. Please refresh the page.", error)]) /\
  requests q = requests p.
Proof.
  intros L S. cbv zeta. unfold fetchSettles. rewrite L.
  unfold initializeSession_resume, initializeApp_settled.
  destruct o as [m | [ | ] [m | data]]; cbn [truthy]; page_simpl.
  1, 2, 4, 5:
    (split;
     [right; split; [rewrite S; reflexivity | apply last_snoc]
     | split; [intros _; rewrite S, <- app_assoc; repeat split | reflexivity]]).
  destruct (session_id data) as [[ | c sid] | ] eqn:D; cbn [truthy]; page_simpl.
  all: split; [ | split; [intros [] | reflexivity]].
  - right. split; [reflexivity | apply last_snoc].
  - left. exists (c :: sid). split; [discriminate | ].
    split; [reflexivity | ]. split; [apply lookup_insert_eq | reflexivity].
  - right. split; [reflexivity | apply last_snoc].
Qed.

(** X19: an [ok] init response without [session_id] leaves the text
    "undefined" under the storage key.  The page reports the failed
    initialization (once, without the "Failed to connect" notification) and
    installs no identifier; but when the page is then loaded again, as the
    notification asks, the script finds the stored text, installs
    "undefined" as the session identifier and welcomes the user without any
    request. *)
Theorem missing_session_id_is_stored_as_undefined (p : Page) (i : nat)
    (data : JsonBody) :
  inflight p !! i = Some PendingInit ->
  session_id data = None ->
  let q := fetchSettles i (Response true (inr data)) p in
  sessionStorage q !! CONFIG.SESSION_STORAGE_KEY = Some (js "undefined") /\
  sessionId (state q) = None /\
  toasts (elements q)
  = toasts (elements p)
      ++ [(js "Failed to initialize. Please refresh the page.", error)] /\
  sessionId (state (reload q)) = Some (js "undefined") /\
  requests (reload q) = [] /\
  inflight (reload q) = [] /\
  toasts (elements (reload q)) = [(js "Welcome to Smart Tutor AI!", success)].
Proof.
  intros L D. cbv zeta.
  assert (E : fetchSettles i (Response true (inr data)) p
              = showToast (js "Failed to initialize. Please refresh the page.")
                  error
                  (set_sessionId None
                     (set_sessionStorage
                        (<[CONFIG.SESSION_STORAGE_KEY := js "undefined"]>
                           (sessionStorage p))
                        (set_inflight (delete i (inflight p)) p)))).
  { unfold fetchSettles. rewrite L.
    unfold initializeSession_resume, initializeApp_settled. rewrite D.
    reflexivity. }
  rewrite E. clear E.
  assert (Hl : (<[CONFIG.SESSION_STORAGE_KEY := js "undefined"]>
                  (sessionStorage p)) !! CONFIG.SESSION_STORAGE_KEY
               = Some (js "undefined")) by apply lookup_insert_eq.
  split; [exact Hl | ]. split; [reflexivity | ]. split; [reflexivity | ].
  unfold reload, initializeApp, initializeSession.
  change (sessionStorage (fresh_page ?st)) with st.
  page_simpl. rewrite Hl.
  change (truthy (Some (js "undefined"))) with true. cbv iota.
  unfold initializeApp_settled.
  change (truthy (Some (js "undefined"))) with true. cbv iota.
  repeat split.
Qed.

(** ** The screens *)

Lemma handleSendMessage_settled_screens (r : Result (option JsonBody)) (q : Page) :
  screens (handleSendMessage_settled r q) = screens q.
Proof.
  unfold handleSendMessage_settled.
  destruct r as [[data | ] | e];
    [destruct (answer data) as [[ | c t] | ] | | ]; reflexivity.
Qed.

Lemma handleFileUpload_settled_screens (r : Result (option JsonBody)) (q : Page) :
  screens (handleFileUpload_settled r q) = screens q.
Proof. unfold handleFileUpload_settled. destruct r; reflexivity. Qed.

(** X20: [switchScreen] leaves exactly the named screen active, whatever was
    active before, so switching twice is switching to the last one.  The
    script only ever switches to the chat screen: short of a confirmed "new
    session", an event leaves the screens as they are or leaves the chat
    screen as the only active one; the chat screen, once active, stays
    active and the upload screen, once inactive, stays inactive. *)
Theorem screens_switch_one_way (p : Page) (ev : Event) (s s' : ScreenName) :
  screens (switchScreen s p)
  = match s with
    | upload_screen => (true, false)
    | chat_screen => (false, true)
    end /\
  switchScreen s (switchScreen s' p) = switchScreen s p /\
  (ev <> NewSessionClick true ->
   (screens (step p ev) = screens p \/ screens (step p ev) = (false, true)) /\
   (chatScreenActive (elements p) = true ->
    chatScreenActive (elements (step p ev)) = true) /\
   (uploadScreenActive (elements p) = false ->
    uploadScreenActive (elements (step p ev)) = false)).
Proof.
  split; [now destruct s | ]. split; [now destruct s, s' | ].
  intros Hev.
  assert (H : screens (step p ev) = screens p
              \/ screens (step p ev) = (false, true)).
  { assert (Hup : forall files, screens (handleFileUpload files p) = screens p).
    { intros files.
      destruct (handleFileUpload_cases p files)
        as [[_ ->] | [(_ & _ & ->) | (B & V & [[S ->] | (sid & S & Hsid & ->)])]];
        reflexivity. }
    destruct ev as [files | files | | value | c | c | i o | i d | i]; simpl.
    - left. destruct (0 <? length files)%nat; [apply Hup | reflexivity].
    - left. destruct (_ && _); [apply Hup | reflexivity].
    - left. destruct (handleSendMessage_cases p)
        as [[_ ->]
           | [(_ & _ & ->)
             | (B & Hne & Hle & [[S ->] | [(sid & S & Hsid & W & ->)
                                          | (sid & S & Hsid & W & ->)]])]];
        reflexivity.
    - now left.
    - left. now destruct c.
    - left. destruct c; [now destruct Hev | reflexivity].
    - left. unfold fetchSettles.
      destruct (inflight p !! i) as [[ | files progress | message] | ];
        try reflexivity.
      + unfold initializeSession_resume, initializeApp_settled.
        destruct o as [m | [ | ] [m | data]];
          repeat match goal with
                 | |- context [truthy ?x] => destruct (truthy x)
                 end; reflexivity.
      + now rewrite handleFileUpload_settled_screens.
      + now rewrite handleSendMessage_settled_screens.
    - left. unfold intervalTick.
      destruct (inflight p !! i) as [[ | files progress | message] | ];
        reflexivity.
    - unfold timeoutFires. destruct (timers p !! i); [now right | now left]. }
  split; [exact H | ].
  unfold screens in H.
  split; intros E; destruct H as [H | H]; injection H as H1 H2; congruence.
Qed.

(** ** The character counter *)

(** X21: the counter is hidden exactly for an empty input and is shown in
    the error colour exactly for an input of more than 1800 code units.
    So every input that [handleSendMessage] turns down for its length is on
    display in the error colour when it is sent, and after an accepted send
    the counter is hidden again and reads 0 of 2000. *)
Theorem char_counter_warns_before_limit (p : Page) :
  (counter_hidden (updateCharCounter p) = true
   <-> messageInput (elements p) = []) /\
  (counter_color (updateCharCounter p) = color_error
   <-> 1800 < N.of_nat (length (messageInput (elements p)))) /\
  (2000 < N.of_nat (length (trim (messageInput (elements p)))) ->
   counter_color (updateCharCounter p) = color_error /\
   counter_hidden (updateCharCounter p) = false) /\
  (isProcessing (state p) = false ->
   trim (messageInput (elements p)) <> [] ->
   N.of_nat (length (trim (messageInput (elements p)))) <= 2000 ->
   counter_hidden (updateCharCounter (handleSendMessage p)) = true /\
   counter_text (updateCharCounter (handleSendMessage p)) = js "0 / 2000").
Proof.
  unfold updateCharCounter. cbn [counter_hidden counter_color counter_text].
  split; [ | split; [ | split]].
  - destruct (messageInput (elements p)) as [ | c m]; simpl length.
    + split; reflexivity.
    + split; [ | discriminate].
      destruct (N.ltb_spec 0 (N.of_nat (S (length m)))); [discriminate | lia].
  - destruct (N.ltb_spec 1800 (N.of_nat (length (messageInput (elements p)))));
      split; try discriminate; try reflexivity; try lia; auto.
  - intros H. pose proof (length_trim (messageInput (elements p))) as Hle.
    assert (H1 : (1800 <? N.of_nat (length (messageInput (elements p)))) = true)
      by (apply N.ltb_lt; lia).
    assert (H2 : (0 <? N.of_nat (length (messageInput (elements p)))) = true)
      by (apply N.ltb_lt; lia).
    rewrite H1, H2. split; reflexivity.
  - intros B Hne Hle.
    assert (E : messageInput (elements (handleSendMessage p)) = [])
      by (now apply accepted_send_clears_input).
    rewrite E. split; reflexivity.
Qed.

(** ** What is sent, and what a page starts with *)


(** X23: what a page starts with.  Loaded in a tab that holds a non-empty
    identifier, the page is ready at once: the identifier is installed, the
    welcome notification raised, no request issued.  Loaded in a tab without
    one, it has issued the init request, which is outstanding, has raised no
    notification yet and has no identifier.  In both cases the busy flag is
    clear and the storage untouched. *)
Theorem page_load_outcome (storage : gmap jsstring jsstring) :
  (forall sid : jsstring,
     storage !! CONFIG.SESSION_STORAGE_KEY = Some sid -> sid <> [] ->
     sessionId (state (run storage [])) = Some sid /\
     toasts (elements (run storage []))
     = [(js "Welcome to Smart Tutor AI!", success)] /\
     requests (run storage []) = [] /\
     inflight (run storage []) = []) /\
  (truthy (storage !! CONFIG.SESSION_STORAGE_KEY) = false ->
   sessionId (state (run storage [])) = None /\
   toasts (elements (run storage [])) = [] /\
   requests (run storage []) = [ReqInit] /\
   inflight (run storage []) = [PendingInit]) /\
  isProcessing (state (run storage [])) = false /\
  sessionStorage (run storage []) = storage.
Proof.
  unfold run. cbn [foldl]. unfold initializeApp, initializeSession.
  change (sessionStorage (fresh_page storage)) with storage.
  split; [ | split].
  - intros [ | c sid] L Hsid; [now destruct Hsid | ].
    rewrite L. cbn [truthy]. unfold initializeApp_settled. cbn [truthy].
    repeat split.
  - intros T. rewrite T. repeat split.
  - destruct (truthy (storage !! CONFIG.SESSION_STORAGE_KEY)) eqn:T.
    + unfold initializeApp_settled. rewrite T. split; reflexivity.
    + split; reflexivity.
Qed.

End Script.

(** * Examples *)

(** The examples are run in the browser of the examples. *)
#[global] Existing Instance sample_browser.

Lemma upload_validation_gate_witness :
  ~ Forall file_ok [chapter3_pdf; notes_docx] /\
  requests (handleFileUpload [chapter3_pdf; notes_docx] ready_page) = [] /\
  inflight (handleFileUpload [chapter3_pdf; notes_docx] ready_page) = [].
Proof.
  assert (Hbad : ~ Forall file_ok [chapter3_pdf; notes_docx]).
  { intros H. apply list.Forall_cons in H as [_ H].
    apply list.Forall_cons in H as [[H _] _]. discriminate H. }
  split; [exact Hbad | ].
  destruct (proj2 (upload_validation_gate [chapter3_pdf; notes_docx])
              ready_page Hbad) as (Hr & Hi & _).
  split; [exact Hr | exact Hi].
Defined.



(** C3, as the claim has it, fails twice.  The limit is checked on the
    trimmed text: an input of 2001 characters, one letter followed by 2000
    blanks, is sent as the one letter.  And the busy flag is checked before
    the limit: while an operation is in flight a message of 2001 letters is
    dropped without a warning. *)
Lemma long_message_counterexample :
  (length padded_message = 2001%nat /\
   requests (handleSendMessage (set_messageInput padded_message ready_page))
   = [ReqChat (js "s-1") (js "a")]) /\
  (length (trim long_message) = 2001%nat /\
   toasts (elements busy_page) = [] /\
   toasts (elements (handleSendMessage (set_messageInput long_message busy_page)))
   = []).
Proof. vm_compute. repeat split; reflexivity. Qed.

Lemma invalid_message_not_sent_witness :
  requests (handleSendMessage (set_messageInput long_message ready_page)) = [] /\
  chatMessages
    (elements (handleSendMessage (set_messageInput long_message ready_page)))
  = [] /\
  toasts (elements (handleSendMessage (set_messageInput long_message ready_page)))
  = [(js "Message exceeds 2000 characters", warning)].
Proof.
  assert (Hlong : 2000 < N.of_nat (length (trim (messageInput
                     (elements (set_messageInput long_message ready_page)))))).
  { vm_compute. reflexivity. }
  destruct (invalid_message_not_sent
              (set_messageInput long_message ready_page) (or_intror Hlong))
    as (Hr & _ & Hc & Ht).
  split; [exact Hr | ]. split; [exact Hc | ].
  exact (Ht Hlong eq_refl).
Defined.






Lemma upload_success_welcome_witness :
  let shown :=
    timeoutFires 0
      (fetchSettles 0 (Response true (inr chapter3_response))
         (handleFileUpload [chapter3_pdf] ready_page)) in
  chatScreenActive (elements shown) = true /\
  exists text,
    chatMessages (elements shown) = [] ++ [Message bot text []] /\
    text = js "Ask me anything about Chapter 3".
Proof.
  assert (V : Forall file_ok [chapter3_pdf]).
  { constructor; [ | constructor]. split; [reflexivity | ].
    vm_compute. discriminate. }
  assert (Hsid : js "s-1" <> []) by (vm_compute; discriminate).
  destruct (upload_success_welcome ready_page [chapter3_pdf] (js "s-1")
              chapter3_response eq_refl V eq_refl Hsid)
    as (_ & _ & _ & _ & _ & _ & _ & Hc & text & Hm & Hw & _).
  split; [exact Hc | ].
  exists text. split; [exact Hm | ].
  apply Hw; [reflexivity | vm_compute; discriminate].
Defined.

Lemma upload_failure_reverts_witness :
  let failed :=
    fetchSettles 0 rejected_response
      (intervalTick 0 7 (handleFileUpload [chapter3_pdf] ready_page)) in
  toasts (elements failed) = [(js "Could not read chapter3.pdf", error)] /\
  progressPercent (elements failed) = 0 /\
  uploadScreenActive (elements failed) = true /\
  requests failed = [ReqUpload (js "s-1") [chapter3_pdf]].
Proof.
  destruct (upload_failure_reverts
              (intervalTick 0 7 (handleFileUpload [chapter3_pdf] ready_page))
              0%nat [chapter3_pdf] 7 rejected_response
              (mkError (js "Could not read chapter3.pdf")) eq_refl eq_refl)
    as (_ & Ht & _ & _ & _ & Hp & Hu & _ & _ & _ & Hr & _).
  split; [apply Ht; vm_compute; discriminate | ].
  split; [exact Hp | ]. split; [exact Hu | exact Hr].
Defined.

Lemma session_get_or_create_witness :
  initializeSession stored_page
  = (set_sessionId (Some (js "s-7")) stored_page, Settled (Some (js "s-7"))) /\
  requests (fst (initializeSession (fresh_page ∅))) = [ReqInit] /\
  snd (initializeSession_resume
         (Response true (inr (mkJson (Some (js "s-8")) None None None None)))
         (fresh_page ∅)) = Some (js "s-8") /\
  snd (initializeSession_resume (Response false (inl (js "Unexpected token")))
         (fresh_page ∅)) = None.
Proof.
  destruct (session_get_or_create stored_page) as (Hs & _).
  destruct (session_get_or_create (fresh_page ∅)) as (_ & Ha & Hc & Hf).
  split; [ | split; [ | split]].
  - apply Hs; [ | vm_compute; discriminate].
    unfold stored_page, fresh_page. cbn [sessionStorage].
    apply lookup_singleton_eq.
  - apply Ha. left. apply lookup_empty.
  - apply (Hc (mkJson (Some (js "s-8")) None None None None)). reflexivity.
  - apply (Hf (Response false (inl (js "Unexpected token")))). exact I.
Defined.

(** A 5 MB PDF is uploaded in a tab that has a session; the backend answers
    with a welcome message; the timeout fires: the chat screen is active
    and the transcript's sole message is the bot's, with that text. *)
Example scenario_upload_then_welcome :
  let final :=
    run {[ js "smart_tutor_session_id" := js "s-7" ]}
      [FileInputChange [chapter3_pdf];
       IntervalTick 0 4;
       FetchSettles 0 (Response true (inr chapter3_response));
       TimeoutFires 0] in
  requests final = [ReqUpload (js "s-7") [chapter3_pdf]] /\
  (uploadScreenActive (elements final), chatScreenActive (elements final))
  = (false, true) /\
  chatMessages (elements final)
  = [Message bot (js "Ask me anything about Chapter 3") []] /\
  isProcessing (state final) = false.
Proof. vm_compute. repeat split; reflexivity. Qed.

(** A .docx file is selected: no request, one error notification that says
    only PDF files are allowed, the upload screen stays. *)
Example scenario_docx_rejected :
  let final :=
    run {[ js "smart_tutor_session_id" := js "s-7" ]}
      [FileInputChange [notes_docx]] in
  requests final = [] /\
  toasts (elements final)
  = [(js "Welcome to Smart Tutor AI!", success);
     (js "notes.docx: Only PDF files are allowed", error)] /\
  uploadScreenActive (elements final) = true.
Proof. vm_compute. repeat split; reflexivity. Qed.

(** A question is answered with one source: the transcript shows the user's
    message, then the bot's answer with that source.  A second send while
    the first is outstanding is dropped. *)
Example scenario_answer_with_source :
  let final :=
    run {[ js "smart_tutor_session_id" := js "s-7" ]}
      [MessageInputEdit (js "What is entropy?");
       SendTrigger;
       MessageInputEdit (js "And enthalpy?");
       SendTrigger;
       FetchSettles 0
         (Response true
            (inr (mkJson None None None (Some (js "Entropy measures disorder."))
                    (Some [mkSourceRef (js "thermo.pdf") 42]))))] in
  requests final = [ReqChat (js "s-7") (js "What is entropy?")] /\
  chatMessages (elements final)
  = [Message user (js "What is entropy?") [];
     Message bot (js "Entropy measures disorder.")
       [mkSourceRef (js "thermo.pdf") 42]] /\
  isProcessing (state final) = false.
Proof. vm_compute. repeat split; reflexivity. Qed.

(** The init request fails on a fresh tab, and a message is sent anyway:
    both failure toasts of the initialization, then the "No active session"
    toast; the only request ever issued is the init request. *)
Example scenario_no_session :
  let final :=
    run ∅
      [FetchSettles 0 (NetworkError (js "Failed to fetch"));
       MessageInputEdit (js "What is entropy?");
       SendTrigger] in
  requests final = [ReqInit] /\
  toasts (elements final)
  = [session_failed_toast;
     (js "Failed to initialize. Please refresh the page.", error);
     no_session_toast] /\
  chatMessages (elements final)
  = [Message user (js "What is entropy?") []; Message bot no_answer_text []].
Proof. vm_compute. repeat split; reflexivity. Qed.


Lemma chat_failure_detail_never_shown_witness :
  fetchSettles 0 (NetworkError (js "Failed to fetch"))
    (handleSendMessage entropy_page)
  = fetchSettles 0
      (Response false
         (inr (mkJson None (Some (js "Vector store unavailable")) None None None)))
      (handleSendMessage entropy_page).
Proof.
  apply (chat_failure_detail_never_shown (handleSendMessage entropy_page) 0%nat
           (js "What is entropy?") _ _
           (mkError (js "Failed to fetch"))
           (mkError (js "Vector store unavailable")));
    reflexivity.
Defined.

Lemma rejected_send_keeps_input_witness :
  handleSendMessage (set_messageInput (js "   ") ready_page)
  = set_messageInput (js "   ") ready_page /\
  messageInput
    (elements (handleSendMessage (set_messageInput long_message ready_page)))
  = long_message /\
  messageInput (elements (handleSendMessage entropy_page)) = [].
Proof.
  split; [ | split].
  - apply (proj1 (rejected_send_keeps_input
                    (set_messageInput (js "   ") ready_page))).
    left. vm_compute. reflexivity.
  - apply (proj1 (proj2 (rejected_send_keeps_input
                           (set_messageInput long_message ready_page))));
      [reflexivity | vm_compute; reflexivity].
  - apply (proj2 (proj2 (rejected_send_keeps_input entropy_page)));
      [reflexivity | vm_compute; discriminate | vm_compute; discriminate].
Defined.

Lemma upload_error_toast_text_witness :
  toasts (elements (fetchSettles 0 (Response false (inl (js "Unexpected token <")))
                      (handleFileUpload [chapter3_pdf] ready_page)))
  = [(js "Unexpected token <", error)] /\
  toasts (elements (fetchSettles 0
                      (Response false (inr (mkJson None None None None None)))
                      (handleFileUpload [chapter3_pdf] ready_page)))
  = [(js "Upload failed", error)].
Proof.
  destruct (upload_error_toast_text (handleFileUpload [chapter3_pdf] ready_page)
              0%nat [chapter3_pdf] 0 eq_refl) as (_ & _ & Hd & Hp & _).
  split.
  - apply (Hp false). vm_compute. discriminate.
  - apply (Hd (mkJson None None None None None)). now left.
Defined.

Lemma upload_without_session_witness :
  let finished := handleFileUpload [chapter3_pdf] (fresh_page ∅) in
  requests finished = [] /\
  toasts (elements finished)
  = [(js "No active session. Please refresh the page.", error);
     (js "Successfully processed 1 file(s)", success)] /\
  chatScreenActive (elements (timeoutFires 0 finished)) = true.
Proof.
  assert (V : Forall file_ok [chapter3_pdf]).
  { constructor; [ | constructor]. split; [reflexivity | ].
    vm_compute. discriminate. }
  destruct (upload_without_session (fresh_page ∅) [chapter3_pdf]
              eq_refl V eq_refl)
    as (Hr & _ & Ht & _ & _ & _ & _ & Hc & _).
  split; [exact Hr | ]. split; [exact Ht | exact Hc].
Defined.

Lemma validation_messages_name_files_witness :
  exists e, e ∈ validateFiles [chapter3_pdf; huge_scan]
            /\ file_name huge_scan `prefix_of` e.
Proof.
  apply (proj1 (proj2 (validation_messages_name_files
                         [chapter3_pdf; huge_scan] []))).
  - apply list_elem_of_further, list_elem_of_here.
  - reflexivity.
Defined.

Lemma init_request_at_most_once_witness :
  sessionId (state (run ∅ [MessageInputEdit (js "hello"); SendTrigger])) = None /\
  requests (run ∅ [MessageInputEdit (js "hello"); SendTrigger]) = [ReqInit].
Proof.
  apply (proj2 (init_request_at_most_once ∅
                  [MessageInputEdit (js "hello"); SendTrigger])).
  vm_compute. apply Exists_cons_hd. reflexivity.
Defined.


Lemma upload_view_while_uploading_witness :
  uploadZoneInert
    (elements
       (run {[ js "smart_tutor_session_id" := js "s-7" ]}
          [FileInputChange [chapter3_pdf]; IntervalTick 0 4])) = true.
Proof.
  assert (L : inflight
                (run {[ js "smart_tutor_session_id" := js "s-7" ]}
                   [FileInputChange [chapter3_pdf]; IntervalTick 0 4])
              !! 0%nat = Some (PendingUpload [chapter3_pdf] 4))
    by (vm_compute; reflexivity).
  destruct (upload_view_while_uploading
              {[ js "smart_tutor_session_id" := js "s-7" ]}
              [FileInputChange [chapter3_pdf]; IntervalTick 0 4]
              0%nat [chapter3_pdf] 4 L) as (_ & _ & _ & _ & Hz & _).
  exact Hz.
Defined.

Lemma transcript_append_only_witness :
  map origin
    (messages (chatMessages (elements (handleSendMessage no_session_page))))
  `prefix_of`
  map origin
    (messages
       (chatMessages
          (elements
             (foldl step (handleSendMessage no_session_page)
                [MessageInputEdit (js "again"); SendTrigger;
                 ClearClick false])))).
Proof.
  apply (transcript_append_only (handleSendMessage no_session_page)
           [MessageInputEdit (js "again"); SendTrigger; ClearClick false]).
  reflexivity.
Defined.


Lemma new_session_starts_over_witness :
  sessionId
    (state (fetchSettles 0
              (Response true (inr (mkJson (Some (js "s-9")) None None None None)))
              (startNewSession true ready_page)))
  = Some (js "s-9").
Proof.
  destruct (new_session_starts_over ready_page)
    as (_ & _ & _ & _ & _ & _ & _ & _ & H).
  apply (H (mkJson (Some (js "s-9")) None None None None) (js "s-9"));
    [reflexivity | vm_compute; discriminate].
Defined.

Lemma initialization_outcome_witness :
  toasts (elements (fetchSettles 0 (Response false (inr (mkJson None None None None None)))
                      (initializeApp (fresh_page ∅))))
  = [session_failed_toast;
     (js "Failed to initialize. Please refresh the page.", error)].
Proof.
  assert (L : inflight (initializeApp (fresh_page ∅)) !! 0%nat
              = Some PendingInit) by (vm_compute; reflexivity).
  assert (S : sessionId (state (initializeApp (fresh_page ∅))) = None)
    by (vm_compute; reflexivity).
  destruct (initialization_outcome (initializeApp (fresh_page ∅)) 0%nat
              (Response false (inr (mkJson None None None None None)))
              L S) as (_ & H & _).
  destruct (H I) as (_ & _ & Ht). exact Ht.
Defined.

Lemma missing_session_id_is_stored_as_undefined_witness :
  sessionId
    (state (reload (fetchSettles 0
                      (Response true (inr (mkJson None None None None None)))
                      (initializeApp (fresh_page ∅)))))
  = Some (js "undefined").
Proof.
  assert (L : inflight (initializeApp (fresh_page ∅)) !! 0%nat
              = Some PendingInit) by (vm_compute; reflexivity).
  destruct (missing_session_id_is_stored_as_undefined
              (initializeApp (fresh_page ∅)) 0%nat
              (mkJson None None None None None) L eq_refl)
    as (_ & _ & _ & H & _).
  exact H.
Defined.

Lemma screens_switch_one_way_witness :
  chatScreenActive
    (elements (step (switchScreen chat_screen ready_page)
                 (ClearClick true))) = true.
Proof.
  destruct (screens_switch_one_way (switchScreen chat_screen ready_page)
              (ClearClick true) chat_screen chat_screen) as (_ & _ & H).
  apply H; [discriminate | reflexivity].
Defined.

Lemma char_counter_warns_before_limit_witness :
  counter_color (updateCharCounter (set_messageInput long_message ready_page))
  = color_error /\
  counter_hidden (updateCharCounter (handleSendMessage entropy_page)) = true.
Proof.
  split.
  - apply (proj1 (proj2 (proj2 (char_counter_warns_before_limit
                                  (set_messageInput long_message ready_page))))).
    vm_compute. reflexivity.
  - apply (proj2 (proj2 (proj2 (char_counter_warns_before_limit entropy_page))));
      [reflexivity | vm_compute; discriminate | vm_compute; discriminate].
Defined.


Lemma page_load_outcome_witness :
  sessionId (state (run {[ js "smart_tutor_session_id" := js "s-7" ]} []))
  = Some (js "s-7") /\
  requests (run ∅ []) = [ReqInit].
Proof.
  split.
  - apply (proj1 (page_load_outcome {[ js "smart_tutor_session_id" := js "s-7" ]})
             (js "s-7")); [apply lookup_singleton_eq | vm_compute; discriminate].
  - apply (proj1 (proj2 (page_load_outcome ∅))). vm_compute. reflexivity.
Defined.
